(** * run_singularity.py: the Singularity launcher of AlphaFold

    A shallow embedding of [src/run_singularity.py].  The script parses its
    options, derives the database paths from the data directory, turns every
    host path into a bind mount of its parent directory, assembles one
    [singularity exec] command line, prints it and runs it.

    Strings are [string]; the Python [str] methods and the [posixpath]
    functions the script calls are written out below, following the pure
    Python definitions of the standard library.  The effects of the script
    (reading the working directory and the clock, printing, running a child
    process) are threaded through an explicit [world]. *)

From Stdlib Require Import Strings.String Strings.Ascii Lists.List ZArith Lia Bool.
From Stdlib Require Import Init.Decimal Numbers.DecimalNat Numbers.DecimalString.
Import ListNotations.
Open Scope string_scope.

(** [++] is the concatenation of strings below; [+++] is that of lists. *)
Infix "+++" := (@List.app _) (right associativity, at level 60).

(** ** Python [str] operations *)

Module PyStr.

(** [len(s)] as a Python integer. *)
Definition len (s : string) : Z := Z.of_nat (String.length s).

(** [s.startswith(pre)]. *)
Fixpoint startswith (s pre : string) {struct pre} : bool :=
  match pre, s with
  | EmptyString, _ => true
  | String _ _, EmptyString => false
  | String b pre', String a s' => Ascii.eqb a b && startswith s' pre'
  end.

(** [s.endswith(suf)]: some tail of [s] is [suf]. *)
Fixpoint endswith (s suf : string) : bool :=
  (s =? suf) ||
  match s with
  | EmptyString => false
  | String _ s' => endswith s' suf
  end.

(** [s.rfind(c)] for a one-character [c]: the highest index of [c] in [s],
    or [-1] when [c] does not occur. *)
Fixpoint rfind (s : string) (c : ascii) : Z :=
  match s with
  | EmptyString => (-1)%Z
  | String a s' =>
      let r := rfind s' c in
      if (0 <=? r)%Z then (r + 1)%Z
      else if Ascii.eqb a c then 0%Z else (-1)%Z
  end.

Fixpoint drop (n : nat) (s : string) : string :=
  match n, s with
  | O, _ => s
  | S _, EmptyString => EmptyString
  | S n', String _ s' => drop n' s'
  end.

Fixpoint take (n : nat) (s : string) : string :=
  match n, s with
  | O, _ => EmptyString
  | S _, EmptyString => EmptyString
  | S n', String a s' => String a (take n' s')
  end.

(** A slice bound as Python clamps it: negative bounds count from the end,
    and everything is cut to [0 .. len s]. *)
Definition clamp (i : Z) (s : string) : nat :=
  Z.to_nat (if (i <? 0)%Z then Z.max 0 (i + len s) else Z.min i (len s)).

(** [s[i:]] and [s[:i]]. *)
Definition slice_from (s : string) (i : Z) : string := drop (clamp i s) s.
Definition slice_to (s : string) (i : Z) : string := take (clamp i s) s.

(** [s.rstrip(c)] for a one-character [c]. *)
Fixpoint rstrip (s : string) (c : ascii) : string :=
  match s with
  | EmptyString => EmptyString
  | String a s' =>
      match rstrip s' c with
      | EmptyString => if Ascii.eqb a c then EmptyString else String a EmptyString
      | r => String a r
      end
  end.

(** [c * n]. *)
Fixpoint repeat (c : ascii) (n : nat) : string :=
  match n with
  | O => EmptyString
  | S n' => String c (repeat c n')
  end.

(** [s.split(c)] for a one-character separator [c]; never the empty list. *)
Fixpoint split (s : string) (c : ascii) : list string :=
  match s with
  | EmptyString => [EmptyString]
  | String a s' =>
      if Ascii.eqb a c then EmptyString :: split s' c
      else match split s' c with
           | [] => [String a EmptyString]
           | h :: t => String a h :: t
           end
  end.

(** [sep.join(l)]. *)
Definition join (sep : string) (l : list string) : string := String.concat sep l.

(** [str(n)] for a non-negative integer: its decimal digits. *)
Definition of_nat (n : nat) : string := NilEmpty.string_of_uint (Nat.to_uint n).

(** [str(b)] for a boolean. *)
Definition of_bool (b : bool) : string := if b then "True" else "False".

(** Truth value of a string in a condition: non-empty. *)
Definition truthy (s : string) : bool := negb (s =? "").

(** [enumerate(l)], counting from [i]. *)
Fixpoint enumerate_from {A : Type} (i : nat) (l : list A) : list (nat * A) :=
  match l with
  | [] => []
  | x :: l' => (i, x) :: enumerate_from (S i) l'
  end.

Definition enumerate {A : Type} (l : list A) : list (nat * A) := enumerate_from 0 l.

(** The double-quote character, as a one-character string. *)
Definition dquote : string := String "034"%char EmptyString.

End PyStr.

(** ** Python [list] operations *)

Module PyList.

(** [l.append(x)]: the list after the call. *)
Definition append {A : Type} (l : list A) (x : A) : list A := (l ++ [x])%list.

(** [l.extend(l')]: the list after the call. *)
Definition extend {A : Type} (l l' : list A) : list A := (l ++ l')%list.

(** A list display with unpacked parts, [[*l1, *l2, ...]]. *)
Definition chain {A : Type} (parts : list (list A)) : list A := List.concat parts.

End PyList.

(** ** [posixpath], as [os.path] resolves on the script's platform *)

Module PosixPath.
Import PyStr.

Definition sep : ascii := "/"%char.
Definition sep_str : string := "/".

(** [isabs(s)]. *)
Definition isabs (s : string) : bool := startswith s sep_str.

(** One step of the loop of [join]: the next component [b] replaces the
    path when it is absolute, is appended as it is after an empty path or
    a trailing separator, and after a separator otherwise. *)
Definition join_step (path b : string) : string :=
  if startswith b sep_str then b
  else if (path =? "") || endswith path sep_str then path ++ b
  else path ++ sep_str ++ b.

(** [join(a, *p)]. *)
Definition join (a : string) (p : list string) : string := fold_left join_step p a.

(** [basename(p)]. *)
Definition basename (p : string) : string :=
  let i := (rfind p sep + 1)%Z in
  slice_from p i.

(** [dirname(p)]. *)
Definition dirname (p : string) : string :=
  let i := (rfind p sep + 1)%Z in
  let head := slice_to p i in
  if truthy head && negb (head =? repeat sep (String.length head))
  then rstrip head sep
  else head.

(** [new_comps[-1]] and [new_comps.pop()] on the list of kept components. *)
Definition last_comp (new_comps : list string) : string := last new_comps "".

(** One iteration of the loop of [normpath] over the components.
    [initial_slashes] is 0, 1 or 2. *)
Definition normpath_step (initial_slashes : nat) (new_comps : list string)
    (comp : string) : list string :=
  if (comp =? "") || (comp =? ".") then new_comps
  else if negb (comp =? "..")
          || ((initial_slashes =? 0)%nat && match new_comps with [] => true | _ => false end)
          || (match new_comps with [] => false | _ => true end
              && (last_comp new_comps =? ".."))
       then new_comps ++ [comp]
       else match new_comps with
            | [] => new_comps
            | _ => removelast new_comps
            end.

(** [normpath(path)]. *)
Definition normpath (path : string) : string :=
  if path =? "" then "."
  else
    let initial_slashes :=
      if startswith path sep_str then
        if startswith path (repeat sep 2) && negb (startswith path (repeat sep 3))
        then 2%nat else 1%nat
      else 0%nat in
    let comps := split path sep in
    let new_comps := fold_left (normpath_step initial_slashes) comps [] in
    let path := PyStr.join sep_str new_comps in
    let path := repeat sep initial_slashes ++ path in
    if truthy path then path else ".".

End PosixPath.

(** ** The process environment and its effects *)

(** What the script reads from and writes to its environment: the working
    directory ([os.getcwd]), the date of the day as [strftime("%Y-%m-%d")]
    formats it, the exit code the child process will end with for a given
    command line, the lines printed so far and the command lines run so far
    (both oldest first). *)
Record world : Type := mkWorld {
  cwd : string;
  today : string;
  child_returncode : list string -> Z;
  stdout : list string;
  spawned : list (list string)
}.

Definition IO (A : Type) : Type := world -> A * world.

Definition ret {A : Type} (a : A) : IO A := fun w => (a, w).

Definition bind {A B : Type} (m : IO A) (k : A -> IO B) : IO B :=
  fun w => let (a, w') := m w in k a w'.

Declare Scope io_scope.
Delimit Scope io_scope with io.
Notation "x <- m ;; k" := (bind m (fun x => k))
  (at level 61, m at next level, right associativity) : io_scope.
Notation "' p <- m ;; k" := (bind m (fun x => let p := x in k))
  (at level 61, p pattern, m at next level, right associativity) : io_scope.
Notation "m ;;; k" := (bind m (fun _ => k))
  (at level 61, right associativity) : io_scope.
Open Scope io_scope.

(** A [for] loop over a list, threading the variables [s] the body updates. *)
Fixpoint for_each {A S : Type} (l : list A) (body : A -> S -> IO S) (s : S) : IO S :=
  match l with
  | [] => ret s
  | x :: l' => s' <- body x s ;; for_each l' body s'
  end.

(** [os.getcwd()]. *)
Definition os_getcwd : IO string := fun w => (cwd w, w).

(** [datetime.today().strftime("%Y-%m-%d")]. *)
Definition datetime_today : IO string := fun w => (today w, w).

(** [print(s)]: one more line on the standard output. *)
Definition print (s : string) : IO unit :=
  fun w => (tt, mkWorld (cwd w) (today w) (child_returncode w)
                        (PyList.append (stdout w) s) (spawned w)).

(** [subprocess.run(command)] with its default [check=False]: the child is
    started, the call waits for it to end and returns its exit code in the
    [returncode] of the completed process, whatever the code is. *)
Definition subprocess_run (command : list string) : IO Z :=
  fun w => (child_returncode w command,
            mkWorld (cwd w) (today w) (child_returncode w)
                    (stdout w) (PyList.append (spawned w) command)).

(** [os.path.abspath(path)]: a relative path is joined to the working
    directory, then the path is normalised. *)
Definition abspath (path : string) : IO string :=
  if PosixPath.isabs path then ret (PosixPath.normpath path)
  else c <- os_getcwd ;; ret (PosixPath.normpath (PosixPath.join c [path])).

(** ** The script *)

Definition CONTAINER_IMAGE : string := "docker://catgumag/alphafold:latest".
Definition ROOT_MOUNT_DIRECTORY : string := "/mnt".
Definition AVAILABLE_MODELS : list string :=
  ["model_1"; "model_2"; "model_3"; "model_4"; "model_5"].

(** [generate_mount(mount_name, path, read_only)]: the mount line
    [source:target:opts] of the parent directory of [path], and the path
    under which [path] is visible in the container. *)
Definition generate_mount (mount_name path : string) (read_only : bool)
    : IO (string * string) :=
  path <- abspath path ;;
  let source_path := PosixPath.dirname path in
  let target_path := PosixPath.join ROOT_MOUNT_DIRECTORY [mount_name] in
  let opts := if read_only then "ro" else "rw" in
  let mount_cmd := source_path ++ ":" ++ target_path ++ ":" ++ opts in
  ret (mount_cmd, PosixPath.join target_path [PosixPath.basename path]).

(** A command line made of the options of the parser, as [argparse] has
    split it into options and values: [None] when the option is absent,
    the values that follow it otherwise ([--benchmark] takes none: it is
    there or not).  What [argparse] refuses or answers while it splits the
    words (a word that is no option of the parser, such as a value that
    starts with [-]; an option without its value; an ambiguous
    abbreviation; [--help]) is not a [cli]: a [cli] stands for a command
    line that passed the splitting, and the theorems below say nothing of
    the others. *)
Record cli : Type := mkCli {
  cli_fasta_paths : option (list string);
  cli_max_template_date : option string;
  cli_preset : option string;
  cli_benchmark : bool;
  cli_models : option (list string);
  cli_data_dir : option string;
  cli_output_dir : option string
}.

(** The namespace [parse_arguments] returns. *)
Record args : Type := mkArgs {
  fasta_paths : list string;
  max_template_date : string;
  preset : string;
  benchmark : bool;
  models : list string;
  data_dir : string;
  output_dir : string
}.

Definition mem (x : string) (l : list string) : bool := existsb (String.eqb x) l.

(** [parse_arguments()], by the declarations of the parser: [--fasta-paths]
    is required and, like [--models], takes one value or more; the values of
    [--preset] and [--models] are among their choices; an absent option has
    its default.  [None] is the error exit of the parser on these checks
    (usage and message on the standard error, status 2). *)
Definition parse_arguments (c : cli) : IO (option args) :=
  default_date <- datetime_today ;;
  match cli_fasta_paths c with
  | None | Some [] => ret None
  | Some fastas =>
      let date := match cli_max_template_date c with Some d => d | None => default_date end in
      let pre := match cli_preset c with Some p => p | None => "full_dbs" end in
      let mods := match cli_models c with Some m => m | None => AVAILABLE_MODELS end in
      let ddir := match cli_data_dir c with Some d => d | None => "./databases/" end in
      let odir := match cli_output_dir c with Some o => o | None => "results/" end in
      if negb (mem pre ["full_dbs"; "casp14"]) then ret None
      else match cli_models c with
           | Some [] => ret None
           | _ =>
               if negb (forallb (fun m => mem m AVAILABLE_MODELS) mods) then ret None
               else ret (Some (mkArgs fastas date pre (cli_benchmark c) mods ddir odir))
           end
  end.

(** The local variables of [main] once [command] is assigned. *)
Record plan : Type := mkPlan {
  mounts : list string;
  target_fasta_paths : list string;
  command_args : list string;
  command : list string
}.

(** The fixed environment of the container, in the order of the dictionary. *)
Definition env : list (string * string) :=
  [("TF_FORCE_UNIFIED_MEMORY", "1"); ("XLA_PYTHON_CLIENT_MEM_FRACTION", "4.0")].

(** The body of [main] from the database paths to the assignment of
    [command]. *)
Definition main_plan (a : args) : IO plan :=
  let uniref90_database_path := PosixPath.join (data_dir a) ["uniref90"; "uniref90.fasta"] in
  let mgnify_database_path := PosixPath.join (data_dir a) ["mgnify"; "mgy_clusters.fa"] in
  let bfd_database_path :=
    PosixPath.join (data_dir a)
      ["bfd"; "bfd_metaclust_clu_complete_id30_c90_final_seq.sorted_opt"] in
  let uniclust30_database_path :=
    PosixPath.join (data_dir a) ["uniclust30"; "uniclust30_2018_08"; "uniclust30_2018_08"] in
  let pdb70_database_path := PosixPath.join (data_dir a) ["pdb70"; "pdb70"] in
  let template_mmcif_dir := PosixPath.join (data_dir a) ["pdb_mmcif"; "mmcif_files"] in
  let obsolete_pdbs_path := PosixPath.join (data_dir a) ["pdb_mmcif"; "obsolete.dat"] in
  let mounts : list string := [] in
  let command_args : list string := [] in
  let target_fasta_paths : list string := [] in
  '(mounts, target_fasta_paths) <-
    for_each (PyStr.enumerate (fasta_paths a))
      (fun '(i, fasta_path) '((mounts, target_fasta_paths) : list string * list string) =>
         '(mount, target_path) <-
           generate_mount ("fasta_path_" ++ PyStr.of_nat i) fasta_path true ;;
         ret (PyList.append mounts mount, PyList.append target_fasta_paths target_path))
      (mounts, target_fasta_paths) ;;
  let command_args :=
    PyList.append command_args ("--fasta_paths=" ++ PyStr.join "," target_fasta_paths) in
  let arg_paths :=
    [("uniref90_database_path", uniref90_database_path);
     ("mgnify_database_path", mgnify_database_path);
     ("uniclust30_database_path", uniclust30_database_path);
     ("bfd_database_path", bfd_database_path);
     ("pdb70_database_path", pdb70_database_path);
     ("data_dir", data_dir a);
     ("template_mmcif_dir", template_mmcif_dir);
     ("obsolete_pdbs_path", obsolete_pdbs_path)] in
  '(mounts, command_args) <-
    for_each arg_paths
      (fun '(name, path) '((mounts, command_args) : list string * list string) =>
         if PyStr.truthy path then
           '(mount, target_path) <- generate_mount name path true ;;
           ret (PyList.append mounts mount,
                PyList.append command_args ("--" ++ name ++ "=" ++ target_path))
         else ret (mounts, command_args))
      (mounts, command_args) ;;
  '(output_mount, output_target_path) <-
    generate_mount "output" (output_dir a) false ;;
  let mounts := PyList.append mounts output_mount in
  let command_args :=
    PyList.extend command_args
      ["--output_dir=" ++ output_target_path;
       "--model_names=" ++ PyStr.join "," (models a);
       "--max_template_date=" ++ max_template_date a;
       "--preset=" ++ preset a;
       "--benchmark=" ++ PyStr.of_bool (benchmark a);
       "--logtostderr"] in
  let command :=
    PyList.chain
      [["singularity"; "exec"; "--nv"; "--bind"; PyStr.join "," mounts];
       map (fun '(k, v) => "--env=" ++ PyStr.dquote ++ k ++ "=" ++ v ++ PyStr.dquote) env;
       [CONTAINER_IMAGE; "/app/run_alphafold.sh"];
       command_args] in
  ret (mkPlan mounts target_fasta_paths command_args command).

(** [main()]: the result is the exit status of the script, 2 on the
    parser's error exit and 0 when [main] returns. *)
Definition main (c : cli) : IO Z :=
  parsed <- parse_arguments c ;;
  match parsed with
  | None => ret 2%Z
  | Some a =>
      p <- main_plan a ;;
      print ("Executing: " ++ PyStr.join " " (command p)) ;;;
      _returncode <- subprocess_run (command p) ;;
      ret 0%Z
  end.

(** ** Notions the statements are written with *)

(** [c in s]. *)
Fixpoint contains (s : string) (c : ascii) : bool :=
  match s with
  | EmptyString => false
  | String a s' => Ascii.eqb a c || contains s' c
  end.

(** Every character of [s] satisfies [f]. *)
Fixpoint all_chars (f : ascii -> bool) (s : string) : bool :=
  match s with
  | EmptyString => true
  | String a s' => f a && all_chars f s'
  end.

Definition is_digit (a : ascii) : bool :=
  match a with
  | "0" | "1" | "2" | "3" | "4" | "5" | "6" | "7" | "8" | "9" => true
  | _ => false
  end%char.

(** A path component that [normpath] keeps as it is: not empty, not [.]
    and not [..]. *)
Definition ordinary (s : string) : bool :=
  negb (s =? "") && negb (s =? ".") && negb (s =? "..").

(** A path that ends with the component [b]: [b] alone or after a
    separator. *)
Definition ends_with_component (p b : string) : Prop :=
  p = b \/ exists x, p = x ++ String PosixPath.sep b.

(** [path] as [abspath] returns it in the world [w]. *)
Definition resolved (w : world) (path : string) : string := fst (abspath path w).

(** The local variable [target_path] of [generate_mount]: where the mount
    named [mount_name] is bound in the container. *)
Definition target_path_of (mount_name : string) : string :=
  PosixPath.join ROOT_MOUNT_DIRECTORY [mount_name].

(** The access mode of a mount line [source:target:opts]: its last field. *)
Definition mount_mode (m : string) : string :=
  PyStr.slice_from m (PyStr.rfind m ":" + 1).

(** A call of [generate_mount]: mount name, path, [read_only]. *)
Definition request : Type := string * string * bool.

Definition request_name (r : request) : string := fst (fst r).

(** The mount line and the container-visible path a call returns. *)
Definition mount_line (w : world) (r : request) : string :=
  let '(n, p, ro) := r in fst (fst (generate_mount n p ro w)).

Definition visible_path (w : world) (r : request) : string :=
  let '(n, p, ro) := r in snd (fst (generate_mount n p ro w)).

(** The local variable [arg_paths] of [main]. *)
Definition arg_paths (a : args) : list (string * string) :=
  [("uniref90_database_path",
    PosixPath.join (data_dir a) ["uniref90"; "uniref90.fasta"]);
   ("mgnify_database_path",
    PosixPath.join (data_dir a) ["mgnify"; "mgy_clusters.fa"]);
   ("uniclust30_database_path",
    PosixPath.join (data_dir a) ["uniclust30"; "uniclust30_2018_08"; "uniclust30_2018_08"]);
   ("bfd_database_path",
    PosixPath.join (data_dir a)
      ["bfd"; "bfd_metaclust_clu_complete_id30_c90_final_seq.sorted_opt"]);
   ("pdb70_database_path", PosixPath.join (data_dir a) ["pdb70"; "pdb70"]);
   ("data_dir", data_dir a);
   ("template_mmcif_dir", PosixPath.join (data_dir a) ["pdb_mmcif"; "mmcif_files"]);
   ("obsolete_pdbs_path", PosixPath.join (data_dir a) ["pdb_mmcif"; "obsolete.dat"])].

(** The calls of [generate_mount] in a run of [main], in order: one per
    fasta path, one per entry of [arg_paths] whose path is not empty, one
    for the output directory. *)
Definition fasta_request (ip : nat * string) : request :=
  ("fasta_path_" ++ PyStr.of_nat (fst ip), snd ip, true).

Definition fasta_requests (a : args) : list request :=
  map fasta_request (PyStr.enumerate (fasta_paths a)).

Definition database_request (np : string * string) : request :=
  (fst np, snd np, true).

Definition database_requests (a : args) : list request :=
  map database_request (filter (fun np => PyStr.truthy (snd np)) (arg_paths a)).

Definition output_request (a : args) : request := ("output", output_dir a, false).

Definition mount_requests (a : args) : list request :=
  fasta_requests a +++ database_requests a +++ [output_request a].

(** The flag of a database path. *)
Definition database_flag (w : world) (r : request) : string :=
  "--" ++ request_name r ++ "=" ++ visible_path w r.

(** The two [--env] arguments of the command. *)
Definition env_flags : list string :=
  ["--env=" ++ PyStr.dquote ++ "TF_FORCE_UNIFIED_MEMORY=1" ++ PyStr.dquote;
   "--env=" ++ PyStr.dquote ++ "XLA_PYTHON_CLIENT_MEM_FRACTION=4.0" ++ PyStr.dquote].

(** The plan of [main] written out: what [main_plan] is shown to return. *)
Definition plan_of (w : world) (a : args) : plan :=
  let ms := map (mount_line w) (mount_requests a) in
  let ts := map (visible_path w) (fasta_requests a) in
  let flags :=
    ["--fasta_paths=" ++ PyStr.join "," ts]
    +++ map (database_flag w) (database_requests a)
    +++ ["--output_dir=" ++ visible_path w (output_request a);
         "--model_names=" ++ PyStr.join "," (models a);
         "--max_template_date=" ++ max_template_date a;
         "--preset=" ++ preset a;
         "--benchmark=" ++ PyStr.of_bool (benchmark a);
         "--logtostderr"] in
  mkPlan ms ts flags
    (["singularity"; "exec"; "--nv"; "--bind"; PyStr.join "," ms]
     +++ env_flags
     +++ [CONTAINER_IMAGE; "/app/run_alphafold.sh"]
     +++ flags).

(** The world [w] with another answer for the exit code of the child. *)
Definition with_child_returncode (w : world) (rc : list string -> Z) : world :=
  mkWorld (cwd w) (today w) rc (stdout w) (spawned w).

(** [--preset] and [--models], when given, have values among their choices
    and [--models] has at least one. *)
Definition options_valid (c : cli) : bool :=
  match cli_preset c with
  | Some p => mem p ["full_dbs"; "casp14"]
  | None => true
  end
  && match cli_models c with
     | Some [] => false
     | Some m => forallb (fun x => mem x AVAILABLE_MODELS) m
     | None => true
     end.

(** The parser accepts the command line: [--fasta-paths] is there with one
    path or more and the other options are valid. *)
Definition accepted (c : cli) : bool :=
  match cli_fasta_paths c with
  | Some (_ :: _) => options_valid c
  | _ => false
  end.

(** The namespace of an accepted command line: its values, and the
    defaults of the options it leaves out. *)
Definition args_of (w : world) (c : cli) : args :=
  mkArgs
    (match cli_fasta_paths c with Some l => l | None => [] end)
    (match cli_max_template_date c with Some d => d | None => today w end)
    (match cli_preset c with Some p => p | None => "full_dbs" end)
    (cli_benchmark c)
    (match cli_models c with Some m => m | None => AVAILABLE_MODELS end)
    (match cli_data_dir c with Some d => d | None => "./databases/" end)
    (match cli_output_dir c with Some o => o | None => "results/" end).

(** The world after [main] has printed [line] and run [cmd]. *)
Definition after_run (w : world) (line : string) (cmd : list string) : world :=
  mkWorld (cwd w) (today w) (child_returncode w)
          (stdout w +++ [line]) (spawned w +++ [cmd]).

(** The mount names of [arg_paths]. *)
Definition database_names : list string :=
  ["uniref90_database_path"; "mgnify_database_path"; "uniclust30_database_path";
   "bfd_database_path"; "pdb70_database_path"; "data_dir"; "template_mmcif_dir";
   "obsolete_pdbs_path"].

(** How the flags other than [--model_names], [--benchmark] and
    [--logtostderr] start. *)
Definition path_flag_prefixes : list string :=
  "--fasta_paths=" :: map (fun n => "--" ++ n ++ "=") database_names
  +++ ["--output_dir="; "--max_template_date="; "--preset="].

(** The separator of the fields of a mount line. *)
Definition colon : ascii := ":"%char.

(** The separator of paths, as a test on characters. *)
Definition is_sep (a : ascii) : bool := Ascii.eqb a PosixPath.sep.

(** A component of a normalised path: not empty and free of separators. *)
Definition clean (s : string) : Prop := s <> "" /\ contains s PosixPath.sep = false.

(** A string that ends with a run of characters other than the separator. *)
Definition ends_clean (s : string) : Prop := exists z y, s = z ++ y /\ clean y.

(** The number of occurrences of [c] in [s]. *)
Fixpoint count_char (c : ascii) (s : string) : nat :=
  match s with
  | EmptyString => 0
  | String a s' => (if Ascii.eqb a c then 1 else 0) + count_char c s'
  end.

(** A component of a path as it is usually written: an ordinary name, free
    of separators. *)
Definition plain_component (x : string) : Prop :=
  ordinary x = true /\ contains x PosixPath.sep = false.

(** [needle in s] for strings. *)
Fixpoint is_infix (needle s : string) : bool :=
  PyStr.startswith s needle ||
  match s with
  | EmptyString => false
  | String _ s' => is_infix needle s'
  end.

(** A world to run examples in. *)
Definition example_world : world :=
  mkWorld "/home/user" "2021-07-30" (fun _ => 0%Z) [] [].

(** The command line
    [--fasta-paths /a/seq1.fasta /b/seq2.fasta --data-dir /db --output-dir /out]. *)
Definition example_cli : cli :=
  mkCli (Some ["/a/seq1.fasta"; "/b/seq2.fasta"]) None None false None
        (Some "/db") (Some "/out").

(** Two fasta files of the same name in two directories. *)
Definition same_name_cli : cli :=
  mkCli (Some ["/a/x.fasta"; "/b/x.fasta"]) None None false None None None.

(** ** Facts on the string operations *)

Lemma append_assoc (x y z : string) : (x ++ y) ++ z = x ++ y ++ z.
Proof. induction x as [|a x IH]; simpl; [reflexivity | now rewrite IH]. Qed.

Section StringFacts.

Variable c : ascii.

Lemma append_String_assoc (x : string) (a : ascii) (y : string) :
  x ++ String a y = (x ++ String a "") ++ y.
Proof. induction x as [|b x IH]; simpl; [reflexivity | now rewrite IH]. Qed.

Lemma contains_app (x y : string) :
  contains (x ++ y) c = contains x c || contains y c.
Proof.
  induction x as [|a x IH]; simpl; [reflexivity|].
  now rewrite IH, orb_assoc.
Qed.

Lemma rfind_lower (s : string) : (-1 <= PyStr.rfind s c)%Z.
Proof.
  induction s as [|a s IH]; simpl; [lia|].
  destruct (0 <=? PyStr.rfind s c)%Z eqn:E; [apply Z.leb_le in E; lia|].
  destruct (Ascii.eqb a c); lia.
Qed.

Lemma rfind_upper (s : string) : (PyStr.rfind s c < PyStr.len s)%Z.
Proof.
  unfold PyStr.len.
  induction s as [|a s IH]; simpl String.length; simpl PyStr.rfind; [lia|].
  destruct (0 <=? PyStr.rfind s c)%Z; [lia|].
  destruct (Ascii.eqb a c); lia.
Qed.

Lemma rfind_absent (s : string) :
  contains s c = false -> PyStr.rfind s c = (-1)%Z.
Proof.
  induction s as [|a s IH]; simpl; [reflexivity|].
  intros H. apply orb_false_iff in H as [Ha Hs].
  rewrite (IH Hs), Ha. reflexivity.
Qed.

Lemma rfind_present (s : string) :
  contains s c = true -> (0 <= PyStr.rfind s c)%Z.
Proof.
  induction s as [|a s IH]; simpl; [discriminate|].
  intros H.
  destruct (0 <=? PyStr.rfind s c)%Z eqn:E.
  - apply Z.leb_le in E. lia.
  - destruct (Ascii.eqb a c); [lia|].
    simpl in H. apply IH in H. apply Z.leb_gt in E. lia.
Qed.

(** The last occurrence of [c] is the one no later [c] follows. *)
Lemma rfind_app_last (x y : string) :
  contains y c = false ->
  PyStr.rfind (x ++ String c y) c = PyStr.len x.
Proof.
  intros Hy. unfold PyStr.len.
  induction x as [|a x IH].
  - simpl. rewrite (rfind_absent y Hy). simpl.
    now rewrite Ascii.eqb_refl.
  - simpl append. simpl PyStr.rfind. rewrite IH.
    replace (0 <=? Z.of_nat (String.length x))%Z with true
      by (symmetry; apply Z.leb_le; lia).
    simpl String.length. lia.
Qed.

Lemma drop_app (x y : string) : PyStr.drop (String.length x) (x ++ y) = y.
Proof. induction x as [|a x IH]; simpl; [now destruct y | exact IH]. Qed.

Lemma string_length_app (x y : string) :
  String.length (x ++ y) = (String.length x + String.length y)%nat.
Proof. induction x as [|a x IH]; simpl; [reflexivity | now rewrite IH]. Qed.

Lemma clamp_length_prefix (x y : string) :
  PyStr.clamp (PyStr.len x) (x ++ y) = String.length x.
Proof.
  unfold PyStr.clamp, PyStr.len. rewrite string_length_app.
  destruct (Z.of_nat (String.length x) <? 0)%Z eqn:E;
    [apply Z.ltb_lt in E; lia|].
  rewrite Z.min_l by lia. apply Nat2Z.id.
Qed.

Lemma clamp_0 (s : string) : PyStr.clamp 0 s = 0%nat.
Proof.
  unfold PyStr.clamp, PyStr.len. simpl.
  rewrite Z.min_l by lia. reflexivity.
Qed.

(** What follows the last [c] of a string. *)
Lemma slice_after_last (x y : string) :
  contains y c = false ->
  PyStr.slice_from (x ++ String c y) (PyStr.rfind (x ++ String c y) c + 1) = y.
Proof.
  intros Hy. rewrite (rfind_app_last x y Hy).
  unfold PyStr.slice_from.
  rewrite (append_String_assoc x c y).
  replace (PyStr.len x + 1)%Z with (PyStr.len (x ++ String c ""))
    by (unfold PyStr.len; rewrite string_length_app; simpl; lia).
  rewrite clamp_length_prefix. apply drop_app.
Qed.

Lemma slice_no_sep (s : string) :
  contains s c = false ->
  PyStr.slice_from s (PyStr.rfind s c + 1) = s.
Proof.
  intros Hs. rewrite (rfind_absent s Hs). simpl.
  unfold PyStr.slice_from. now rewrite clamp_0.
Qed.

(** A string that contains [c] is cut at its last [c]. *)
Lemma cut_at_last (s : string) :
  contains s c = true ->
  exists x y, s = x ++ String c y /\ contains y c = false.
Proof.
  induction s as [|a s IH]; simpl; [discriminate|].
  intros H. destruct (contains s c) eqn:Hs.
  - destruct (IH eq_refl) as (x & y & -> & Hy).
    exists (String a x), y. split; [reflexivity | exact Hy].
  - rewrite orb_false_r in H. apply Ascii.eqb_eq in H. subst a.
    exists "", s. split; [reflexivity | exact Hs].
Qed.

(** What [slice_from] keeps after the last [c] is free of [c]. *)
Lemma slice_after_last_free (s : string) :
  contains (PyStr.slice_from s (PyStr.rfind s c + 1)) c = false.
Proof.
  destruct (contains s c) eqn:Hs.
  - destruct (cut_at_last s Hs) as (x & y & -> & Hy).
    now rewrite slice_after_last.
  - now rewrite slice_no_sep.
Qed.

Lemma split_no_sep (s : string) :
  contains s c = false -> PyStr.split s c = [s].
Proof.
  induction s as [|a s IH]; simpl; [reflexivity|].
  intros H. apply orb_false_iff in H as [Ha Hs].
  rewrite Ha, (IH Hs). reflexivity.
Qed.

Lemma split_nonempty (s : string) : PyStr.split s c <> [].
Proof.
  induction s as [|a s IH]; simpl; [discriminate|].
  destruct (Ascii.eqb a c); [discriminate|].
  destruct (PyStr.split s c); [contradiction | discriminate].
Qed.

Lemma split_app (x y : string) :
  PyStr.split (x ++ String c y) c = (PyStr.split x c ++ PyStr.split y c)%list.
Proof.
  induction x as [|a x IH]; simpl.
  - now rewrite Ascii.eqb_refl.
  - rewrite IH. destruct (Ascii.eqb a c); [reflexivity|].
    destruct (PyStr.split x c) eqn:E; [|reflexivity].
    now destruct (split_nonempty x).
Qed.

End StringFacts.

(** ** Facts on the path functions *)

Module PathFacts.
Import PosixPath.

Lemma basename_sep_free (p : string) : contains (basename p) sep = false.
Proof. apply slice_after_last_free. Qed.

Lemma basename_plain (p : string) : contains p sep = false -> basename p = p.
Proof. apply slice_no_sep. Qed.

Lemma basename_app (x y : string) :
  contains y sep = false -> basename (x ++ String sep y) = y.
Proof. apply slice_after_last. Qed.

(** A path is its basename, or a directory part, a separator and its
    basename. *)
Lemma basename_cut (p : string) :
  p = basename p \/ exists x, p = x ++ String sep (basename p).
Proof.
  destruct (contains p sep) eqn:Hp.
  - destruct (cut_at_last sep p Hp) as (x & y & -> & Hy).
    right. exists x. now rewrite basename_app.
  - left. now rewrite basename_plain.
Qed.

Lemma startswith_sep (s : string) :
  PyStr.startswith s sep_str = true -> exists s', s = String sep s'.
Proof.
  destruct s as [|a s]; simpl; [discriminate|].
  rewrite andb_true_r. intros H. apply Ascii.eqb_eq in H. subst a.
  now exists s.
Qed.

Lemma sep_free_relative (s : string) :
  contains s sep = false -> PyStr.startswith s sep_str = false.
Proof.
  intros H. destruct (PyStr.startswith s sep_str) eqn:E; [|reflexivity].
  apply startswith_sep in E as [s' ->]. simpl in H. discriminate.
Qed.

Lemma endswith_sep (s : string) :
  PyStr.endswith s sep_str = true -> exists y, s = y ++ sep_str.
Proof.
  induction s as [|a s IH]; [simpl; discriminate|].
  cbn [PyStr.endswith].
  intros H. apply orb_true_iff in H as [H|H].
  - apply String.eqb_eq in H. rewrite H. now exists "".
  - destruct (IH H) as [y ->]. now exists (String a y).
Qed.

Lemma endswith_app (x suf : string) : PyStr.endswith (x ++ suf) suf = true.
Proof.
  induction x as [|a x IH].
  - simpl append. destruct suf as [|b suf]; [reflexivity|].
    cbn [PyStr.endswith]. now rewrite String.eqb_refl.
  - simpl append. cbn [PyStr.endswith]. rewrite IH. apply orb_true_r.
Qed.

Lemma basename_suffix (z p : string) :
  contains p sep = true -> basename (z ++ p) = basename p.
Proof.
  intros Hp. destruct (cut_at_last sep p Hp) as (x & y & -> & Hy).
  rewrite <- append_assoc. now rewrite !basename_app.
Qed.

Lemma join_step_basename (path b : string) :
  PyStr.startswith b sep_str = false ->
  basename (join_step path b) = basename b.
Proof.
  intros Hb. unfold join_step. rewrite Hb.
  destruct (contains b sep) eqn:Hc.
  - destruct ((path =? "") || PyStr.endswith path sep_str).
    + now apply basename_suffix.
    + rewrite <- append_assoc. now apply basename_suffix.
  - rewrite (basename_plain b Hc).
    destruct (path =? "") eqn:Hp; cbn [orb].
    + apply String.eqb_eq in Hp. subst path. now apply basename_plain.
    + destruct (PyStr.endswith path sep_str) eqn:He.
      * apply endswith_sep in He as [y ->].
        rewrite append_assoc. now apply basename_app.
      * now apply basename_app.
Qed.

Lemma concat_snoc (s : string) (l : list string) (b : string) :
  String.concat s (l ++ [b]) =
  match l with
  | [] => b
  | _ => String.concat s l ++ s ++ b
  end.
Proof.
  induction l as [|x l IH]; [reflexivity|].
  destruct l as [|y l]; [reflexivity|].
  change (String.concat s ((x :: y :: l) ++ [b]))
    with (x ++ s ++ String.concat s ((y :: l) ++ [b])).
  rewrite IH.
  change (String.concat s (x :: y :: l))
    with (x ++ s ++ String.concat s (y :: l)).
  now rewrite !append_assoc.
Qed.

Lemma fold_left_snoc {A B : Type} (f : A -> B -> A) (l : list B) (b : B) (a : A) :
  fold_left f (l ++ [b]) a = f (fold_left f l a) b.
Proof. now rewrite fold_left_app. Qed.

Lemma repeat_snoc (a : ascii) (n : nat) :
  PyStr.repeat a (S n) = PyStr.repeat a n ++ String a "".
Proof. induction n as [|n IH]; [reflexivity|]. simpl in *. now rewrite <- IH. Qed.

Lemma split_last (q : string) :
  exists init, PyStr.split q sep = (init ++ [basename q])%list.
Proof.
  destruct (contains q sep) eqn:Hq.
  - destruct (cut_at_last sep q Hq) as (x & y & -> & Hy).
    exists (PyStr.split x sep).
    now rewrite split_app, (split_no_sep sep y Hy), basename_app.
  - exists []. now rewrite split_no_sep, basename_plain.
Qed.

Lemma ordinary_inv (b : string) :
  ordinary b = true -> b <> "" /\ (b =? "") = false /\ (b =? ".") = false /\ (b =? "..") = false.
Proof.
  unfold ordinary. intros H.
  apply andb_true_iff in H as [H H3]. apply andb_true_iff in H as [H1 H2].
  apply negb_true_iff in H1, H2, H3. repeat split; try assumption.
  now apply String.eqb_neq.
Qed.

Lemma normpath_step_ordinary (k : nat) (l : list string) (b : string) :
  ordinary b = true -> normpath_step k l b = (l ++ [b])%list.
Proof.
  intros H. destruct (ordinary_inv b H) as (_ & H1 & H2 & H3).
  unfold normpath_step. now rewrite H1, H2, H3.
Qed.

Lemma ends_with_component_basename (p b : string) :
  contains b sep = false -> ends_with_component p b -> basename p = b.
Proof.
  intros Hb [-> | [x ->]]; [now apply basename_plain | now apply basename_app].
Qed.

Lemma ends_with_component_prefix (z p b : string) :
  z = "" \/ (exists y, z = y ++ String sep "") ->
  ends_with_component p b -> ends_with_component (z ++ p) b.
Proof.
  intros Hz [-> | [x ->]].
  - destruct Hz as [-> | [y ->]]; [now left|].
    right. exists y. now rewrite <- append_String_assoc.
  - right. exists (z ++ x). now rewrite append_assoc.
Qed.

Lemma join_ends_with_component (l : list string) (b : string) :
  ends_with_component (PyStr.join sep_str (l ++ [b])) b.
Proof.
  unfold PyStr.join. rewrite concat_snoc.
  destruct l as [|x l]; [now left|].
  right. exists (String.concat sep_str (x :: l)). reflexivity.
Qed.

Lemma repeat_sep_shape (k : nat) :
  PyStr.repeat sep k = "" \/ exists y, PyStr.repeat sep k = y ++ String sep "".
Proof.
  destruct k as [|k]; [now left|].
  right. exists (PyStr.repeat sep k). apply repeat_snoc.
Qed.

(** [normpath] keeps the last component of a path when it is ordinary. *)
Lemma normpath_basename (q : string) :
  ordinary (basename q) = true -> basename (normpath q) = basename q.
Proof.
  intros Hb. destruct (ordinary_inv _ Hb) as (Hne & _).
  unfold normpath.
  destruct (q =? "") eqn:Hq.
  { apply String.eqb_eq in Hq. subst q. now destruct Hne. }
  match goal with
  | |- context [PyStr.repeat sep ?k ++ _] => generalize k
  end.
  intros k.
  destruct (split_last q) as [init ->].
  rewrite fold_left_snoc, (normpath_step_ordinary _ _ _ Hb).
  set (l := fold_left (normpath_step k) init []).
  assert (ends_with_component (PyStr.repeat sep k ++ PyStr.join sep_str (l ++ [basename q]))
            (basename q)) as He.
  { apply ends_with_component_prefix;
      [apply repeat_sep_shape | apply join_ends_with_component]. }
  assert (PyStr.truthy (PyStr.repeat sep k ++ PyStr.join sep_str (l ++ [basename q])) = true)
    as Ht.
  { unfold PyStr.truthy. apply negb_true_iff, String.eqb_neq.
    destruct He as [E | [x E]]; rewrite E.
    - exact Hne.
    - now destruct x. }
  rewrite Ht.
  apply ends_with_component_basename; [apply basename_sep_free | exact He].
Qed.

End PathFacts.

(** ** The script leaves the world as it is until it prints *)

Section Effects.

Lemma abspath_eq (p : string) (w : world) : abspath p w = (resolved w p, w).
Proof.
  unfold resolved, abspath.
  destruct (PosixPath.isabs p); reflexivity.
Qed.

Lemma resolved_eq (w : world) (p : string) :
  resolved w p =
  if PosixPath.isabs p then PosixPath.normpath p
  else PosixPath.normpath (PosixPath.join (cwd w) [p]).
Proof.
  unfold resolved, abspath. destruct (PosixPath.isabs p); reflexivity.
Qed.

Lemma generate_mount_eq (n p : string) (ro : bool) (w : world) :
  generate_mount n p ro w =
  ((PosixPath.dirname (resolved w p) ++ ":" ++ target_path_of n ++ ":"
      ++ (if ro then "ro" else "rw"),
    PosixPath.join (target_path_of n) [PosixPath.basename (resolved w p)]),
   w).
Proof.
  unfold generate_mount, bind. rewrite abspath_eq. reflexivity.
Qed.

Lemma generate_mount_request (r : request) (w : world) :
  generate_mount (fst (fst r)) (snd (fst r)) (snd r) w =
  ((mount_line w r, visible_path w r), w).
Proof.
  destruct r as [[n p] ro]. unfold mount_line, visible_path. simpl fst; simpl snd.
  rewrite generate_mount_eq. reflexivity.
Qed.

(** A loop whose body leaves the world as it is is a fold. *)
Lemma for_each_pure {A S : Type} (step : world -> A -> S -> S)
    (body : A -> S -> IO S) :
  (forall x s w, body x s w = (step w x s, w)) ->
  forall l s w, for_each l body s w = (fold_left (fun s x => step w x s) l s, w).
Proof.
  intros Hbody l. induction l as [|x l IH]; intros s w; simpl.
  - reflexivity.
  - unfold bind. rewrite Hbody. apply IH.
Qed.

Lemma fold_left_append2 {A B C : Type} (f : A -> B) (g : A -> C) (l : list A)
    (bs : list B) (cs : list C) :
  fold_left (fun (s : list B * list C) x =>
               let '(bs, cs) := s in (PyList.append bs (f x), PyList.append cs (g x)))
            l (bs, cs)
  = ((bs ++ map f l)%list, (cs ++ map g l)%list).
Proof.
  revert bs cs. induction l as [|x l IH]; intros bs cs; simpl.
  - now rewrite !app_nil_r.
  - rewrite IH. unfold PyList.append. now rewrite <- !app_assoc.
Qed.

Lemma fold_left_append2_if {A B C : Type} (t : A -> bool) (f : A -> B) (g : A -> C)
    (l : list A) (bs : list B) (cs : list C) :
  fold_left (fun (s : list B * list C) x =>
               let '(bs, cs) := s in
               if t x then (PyList.append bs (f x), PyList.append cs (g x)) else (bs, cs))
            l (bs, cs)
  = ((bs ++ map f (filter t l))%list, (cs ++ map g (filter t l))%list).
Proof.
  revert bs cs. induction l as [|x l IH]; intros bs cs; simpl.
  - now rewrite !app_nil_r.
  - destruct (t x); rewrite IH; [|reflexivity].
    unfold PyList.append. simpl. now rewrite <- !app_assoc.
Qed.

Lemma main_plan_eq (a : args) (w : world) : main_plan a w = (plan_of w a, w).
Proof.
  unfold main_plan. cbv zeta. unfold bind at 1.
  rewrite (for_each_pure
             (fun w (ip : nat * string) (s : list string * list string) =>
                let '(ms, ts) := s in
                (PyList.append ms (mount_line w (fasta_request ip)),
                 PyList.append ts (visible_path w (fasta_request ip))))).
  2:{ intros [i p] [ms ts] w'. unfold bind.
      rewrite generate_mount_eq. unfold mount_line, visible_path, fasta_request.
      simpl fst; simpl snd. rewrite generate_mount_eq. reflexivity. }
  rewrite (fold_left_append2 (fun ip => mount_line w (fasta_request ip))
                             (fun ip => visible_path w (fasta_request ip))).
  unfold bind at 1. fold (arg_paths a).
  rewrite (for_each_pure
             (fun w (np : string * string) (s : list string * list string) =>
                let '(ms, cs) := s in
                if PyStr.truthy (snd np)
                then (PyList.append ms (mount_line w (database_request np)),
                      PyList.append cs (database_flag w (database_request np)))
                else (ms, cs))).
  2:{ intros [n p] [ms cs] w'. simpl snd.
      destruct (PyStr.truthy p); [|reflexivity].
      unfold bind. rewrite generate_mount_eq.
      unfold database_flag, mount_line, visible_path, database_request, request_name.
      simpl fst; simpl snd. rewrite generate_mount_eq. reflexivity. }
  rewrite (fold_left_append2_if (fun np => PyStr.truthy (snd np))
             (fun np => mount_line w (database_request np))
             (fun np => database_flag w (database_request np))).
  unfold bind.
  rewrite (generate_mount_request (output_request a)).
  unfold ret, plan_of, mount_requests, fasta_requests, database_requests.
  unfold PyList.append, PyList.extend, PyList.chain.
  rewrite !map_app, !map_map. simpl.
  rewrite <- !app_assoc. reflexivity.
Qed.

End Effects.

(** ** The mount of one path *)

(** C9. The mount computation is deterministic and idempotent: a call of
    [generate_mount] leaves the world as it found it, so a second call with
    the same mount name, path and access mode returns the same mount line
    and the same container-visible path; and the result depends on the
    world through the working directory only. *)
Theorem generate_mount_idempotent (n p : string) (ro : bool) (w w' : world) :
  cwd w' = cwd w ->
  snd (generate_mount n p ro w) = w
  /\ generate_mount n p ro (snd (generate_mount n p ro w)) = generate_mount n p ro w
  /\ fst (generate_mount n p ro w') = fst (generate_mount n p ro w).
Proof.
  intros Hcwd. rewrite !generate_mount_eq. cbn [fst snd].
  repeat split.
  rewrite !resolved_eq, Hcwd. reflexivity.
Qed.

Lemma generate_mount_idempotent_witness :
  snd (generate_mount "output" "results/" false example_world) = example_world
  /\ generate_mount "output" "results/" false
       (snd (generate_mount "output" "results/" false example_world))
     = generate_mount "output" "results/" false example_world
  /\ fst (generate_mount "output" "results/" false
            (with_child_returncode example_world (fun _ => 1%Z)))
     = fst (generate_mount "output" "results/" false example_world).
Proof.
  apply (generate_mount_idempotent "output" "results/" false example_world
           (with_child_returncode example_world (fun _ => 1%Z))).
  reflexivity.
Defined.

Lemma join_one (a b : string) : PosixPath.join a [b] = PosixPath.join_step a b.
Proof. reflexivity. Qed.

Lemma resolved_basename (w : world) (p : string) :
  ordinary (PosixPath.basename p) = true ->
  PosixPath.basename (resolved w p) = PosixPath.basename p.
Proof.
  intros Hb. rewrite resolved_eq.
  destruct (PosixPath.isabs p) eqn:Habs.
  - now apply PathFacts.normpath_basename.
  - rewrite join_one.
    assert (PosixPath.basename (PosixPath.join_step (cwd w) p) = PosixPath.basename p) as E
      by now apply PathFacts.join_step_basename.
    rewrite <- E. apply PathFacts.normpath_basename. now rewrite E.
Qed.

(** C2, where it fails: the output directory [results/] that the script
    takes by default is visible as [/mnt/output/results], while the mount
    root joined with the mount name and with [basename("results/")], which
    is empty, is [/mnt/output/]. *)
Lemma visible_path_trailing_separator :
  snd (fst (generate_mount "output" "results/" false example_world)) = "/mnt/output/results"
  /\ PosixPath.join (PosixPath.join ROOT_MOUNT_DIRECTORY ["output"])
                    [PosixPath.basename "results/"] = "/mnt/output/"
  /\ snd (fst (generate_mount "output" "results/" false example_world))
     <> PosixPath.join (PosixPath.join ROOT_MOUNT_DIRECTORY ["output"])
                       [PosixPath.basename "results/"].
Proof. repeat split. vm_compute. discriminate. Qed.

(** C2, amended.  The container-visible path is the mount root joined with
    the mount name and with the basename of the path made absolute and
    normalised.  When the basename of the path as given is an ordinary name
    (not empty, [.] or [..]), that is the basename of the path itself, and
    the container-visible path is the same for every path of that basename,
    whatever its directory, the access mode and the working directory. *)
Theorem visible_path_basename (w : world) (n p : string) (ro : bool) :
  snd (fst (generate_mount n p ro w))
  = PosixPath.join (PosixPath.join ROOT_MOUNT_DIRECTORY [n])
                   [PosixPath.basename (resolved w p)]
  /\ (ordinary (PosixPath.basename p) = true ->
      snd (fst (generate_mount n p ro w))
      = PosixPath.join (PosixPath.join ROOT_MOUNT_DIRECTORY [n]) [PosixPath.basename p]
      /\ forall w' p' ro',
           PosixPath.basename p' = PosixPath.basename p ->
           snd (fst (generate_mount n p' ro' w')) = snd (fst (generate_mount n p ro w))).
Proof.
  rewrite generate_mount_eq. cbn [fst snd]. unfold target_path_of.
  split; [reflexivity|]. intros Hb.
  rewrite (resolved_basename w p Hb). split; [reflexivity|].
  intros w' p' ro' E. rewrite generate_mount_eq. cbn [fst snd]. unfold target_path_of.
  rewrite resolved_basename by now rewrite E.
  now rewrite E.
Qed.

Lemma visible_path_basename_witness :
  snd (fst (generate_mount "fasta_path_0" "data/seq1.fasta" true example_world))
  = PosixPath.join (PosixPath.join ROOT_MOUNT_DIRECTORY ["fasta_path_0"])
                   [PosixPath.basename "data/seq1.fasta"]
  /\ forall w' p' ro',
       PosixPath.basename p' = PosixPath.basename "data/seq1.fasta" ->
       snd (fst (generate_mount "fasta_path_0" p' ro' w'))
       = snd (fst (generate_mount "fasta_path_0" "data/seq1.fasta" true example_world)).
Proof.
  apply (visible_path_basename example_world "fasta_path_0" "data/seq1.fasta" true).
  reflexivity.
Defined.

(** ** The mounts of a run *)

Lemma mount_line_eq (w : world) (n p : string) (ro : bool) :
  mount_line w (n, p, ro)
  = PosixPath.dirname (resolved w p) ++ ":" ++ target_path_of n ++ ":"
      ++ (if ro then "ro" else "rw").
Proof. unfold mount_line. now rewrite generate_mount_eq. Qed.

Lemma mount_mode_fields (x t m : string) :
  contains m colon = false -> mount_mode (x ++ ":" ++ t ++ ":" ++ m) = m.
Proof.
  intros Hm. unfold mount_mode.
  replace (x ++ ":" ++ t ++ ":" ++ m) with ((x ++ ":" ++ t) ++ String colon m)
    by (rewrite !append_assoc; reflexivity).
  now apply slice_after_last.
Qed.

Lemma mount_mode_request (w : world) (r : request) :
  mount_mode (mount_line w r) = if snd r then "ro" else "rw".
Proof.
  destruct r as [[n p] ro]. rewrite mount_line_eq.
  rewrite mount_mode_fields; [reflexivity | now destruct ro].
Qed.

Lemma read_only_requests (a : args) (r : request) :
  In r (fasta_requests a +++ database_requests a) -> snd r = true.
Proof.
  intros H. apply in_app_or in H as [H|H].
  - unfold fasta_requests in H. apply in_map_iff in H as (ip & <- & _). reflexivity.
  - unfold database_requests in H. apply in_map_iff in H as (np & <- & _). reflexivity.
Qed.

(** C4. Among the mounts of a run exactly one has the access mode [rw],
    the mount of the output directory, which comes last; every other mount
    has the access mode [ro]. *)
Theorem one_read_write_mount (a : args) (w : world) :
  exists ros out,
    mounts (fst (main_plan a w)) = ros +++ [out]
    /\ out = fst (fst (generate_mount "output" (output_dir a) false w))
    /\ mount_mode out = "rw"
    /\ Forall (fun m => mount_mode m = "ro") ros
    /\ List.length (filter (fun m => mount_mode m =? "rw") (mounts (fst (main_plan a w)))) = 1%nat.
Proof.
  rewrite main_plan_eq. cbn [fst]. unfold plan_of. cbn [mounts].
  unfold mount_requests. rewrite app_assoc, map_app. cbn [map].
  set (ros := map (mount_line w) (fasta_requests a +++ database_requests a)).
  assert (Forall (fun m => mount_mode m = "ro") ros) as Hros.
  { apply Forall_forall. intros m Hm. subst ros.
    apply in_map_iff in Hm as (r & <- & Hr).
    rewrite mount_mode_request, (read_only_requests a r Hr). reflexivity. }
  assert (mount_mode (mount_line w (output_request a)) = "rw") as Hout
    by (rewrite mount_mode_request; reflexivity).
  exists ros, (mount_line w (output_request a)).
  split; [reflexivity|]. split; [reflexivity|].
  split; [exact Hout|]. split; [exact Hros|].
  rewrite filter_app, List.length_app. cbn [filter]. rewrite Hout.
  replace (filter (fun m => mount_mode m =? "rw") ros) with (@nil string);
    [rewrite String.eqb_refl; reflexivity|].
  symmetry. clear -Hros. clearbody ros.
  induction Hros as [|m l Hm _ IH]; [reflexivity|].
  cbn [filter]. rewrite Hm. exact IH.
Qed.

(** ** The command line of a run *)

(** C5. The command line is [singularity exec --nv --bind] followed by the
    mount lines joined by commas, then the two [--env] arguments of
    [TF_FORCE_UNIFIED_MEMORY=1] and [XLA_PYTHON_CLIENT_MEM_FRACTION=4.0],
    each value between double quotes, then the image, the entry point
    [/app/run_alphafold.sh] and the flags, the last of which is
    [--logtostderr]. *)
Theorem command_shape (a : args) (w : world) :
  let p := fst (main_plan a w) in
  command p
  = ["singularity"; "exec"; "--nv"; "--bind"; PyStr.join "," (mounts p)]
    +++ ["--env=" ++ PyStr.dquote ++ "TF_FORCE_UNIFIED_MEMORY=1" ++ PyStr.dquote;
         "--env=" ++ PyStr.dquote ++ "XLA_PYTHON_CLIENT_MEM_FRACTION=4.0" ++ PyStr.dquote]
    +++ ["docker://catgumag/alphafold:latest"; "/app/run_alphafold.sh"]
    +++ command_args p
  /\ exists flags, command_args p = flags +++ ["--logtostderr"].
Proof.
  intros p. subst p.
  rewrite main_plan_eq. cbn [fst]. unfold plan_of. cbn [command mounts command_args].
  split; [reflexivity|].
  match goal with
  | |- exists flags, ?l1 +++ ?l2 +++ [?f1; ?f2; ?f3; ?f4; ?f5; ?f6] = _ =>
      exists (l1 +++ l2 +++ [f1; f2; f3; f4; f5])
  end.
  rewrite <- !app_assoc. reflexivity.
Qed.

(** ** The parser and the run *)

Lemma parse_arguments_eq (c : cli) (w : world) :
  parse_arguments c w = (if accepted c then Some (args_of w c) else None, w).
Proof.
  unfold parse_arguments, accepted, options_valid, args_of, bind, datetime_today, ret.
  destruct (cli_fasta_paths c) as [[|p ps]|]; try reflexivity.
  destruct (cli_preset c) as [pre|];
    [destruct (mem pre ["full_dbs"; "casp14"]); [|reflexivity]|];
    cbn [negb andb];
    (destruct (cli_models c) as [[|m ms]|]; [reflexivity| |reflexivity]);
    match goal with
    | |- context [forallb ?f ?l] => destruct (forallb f l); reflexivity
    end.
Qed.

Lemma main_eq (c : cli) (w : world) :
  main c w =
  if accepted c
  then let p := plan_of w (args_of w c) in
       (0%Z, after_run w ("Executing: " ++ PyStr.join " " (command p)) (command p))
  else (2%Z, w).
Proof.
  unfold main, bind. rewrite parse_arguments_eq.
  destruct (accepted c); [|reflexivity].
  rewrite main_plan_eq. reflexivity.
Qed.

Lemma database_request_names (a : args) (r : request) :
  In r (database_requests a) -> In (request_name r) database_names.
Proof.
  unfold database_requests. intros H.
  apply in_map_iff in H as (np & <- & Hnp).
  apply filter_In in Hnp as [Hnp _].
  apply (in_map fst) in Hnp. exact Hnp.
Qed.

(** The flags of a run, one by one. *)
Lemma flags_cases (a : args) (w : world) (f : string) :
  In f (command_args (plan_of w a)) ->
  f = "--model_names=" ++ PyStr.join "," (models a)
  \/ f = "--benchmark=" ++ PyStr.of_bool (benchmark a)
  \/ f = "--logtostderr"
  \/ exists pre x, In pre path_flag_prefixes /\ f = pre ++ x.
Proof.
  unfold plan_of. cbn [command_args]. intros H.
  apply in_app_or in H as [H|H].
  { destruct H as [<-|[]]. right; right; right.
    eexists _, _. split; [|reflexivity]. now left. }
  apply in_app_or in H as [H|H].
  { apply in_map_iff in H as (r & <- & Hr).
    apply database_request_names in Hr.
    right; right; right. unfold database_flag.
    exists ("--" ++ request_name r ++ "="), (visible_path w r). split.
    - right. apply in_or_app. left.
      apply (in_map (fun n => "--" ++ n ++ "=")) in Hr. exact Hr.
    - now rewrite !append_assoc. }
  cbn [In] in H.
  destruct H as [<-|[<-|[<-|[<-|[<-|[<-|[]]]]]]].
  - right; right; right. eexists _, _. split; [|reflexivity].
    right. apply in_or_app. right. now left.
  - now left.
  - right; right; right. eexists _, _. split; [|reflexivity].
    right. apply in_or_app. right. right. now left.
  - right; right; right. eexists _, _. split; [|reflexivity].
    right. apply in_or_app. right. right. right. now left.
  - right. now left.
  - right. right. now left.
Qed.

Lemma path_flag_not_model_names (pre x : string) :
  In pre path_flag_prefixes -> PyStr.startswith (pre ++ x) "--model_names" = false.
Proof.
  unfold path_flag_prefixes, database_names. cbn [map app In].
  intros H. repeat (destruct H as [<-|H]; [reflexivity|]). destruct H.
Qed.

Lemma path_flag_not_benchmark (pre x : string) :
  In pre path_flag_prefixes -> PyStr.startswith (pre ++ x) "--benchmark" = false.
Proof.
  unfold path_flag_prefixes, database_names. cbn [map app In].
  intros H. repeat (destruct H as [<-|H]; [reflexivity|]). destruct H.
Qed.

Lemma parsed_args (c : cli) (w : world) (a : args) :
  fst (parse_arguments c w) = Some a -> accepted c = true /\ a = args_of w c.
Proof.
  rewrite parse_arguments_eq. cbn [fst].
  destruct (accepted c); [|discriminate].
  intros [= <-]. now split.
Qed.

(** C6. A run whose command line the parser accepts prints the command
    after [Executing: ], runs it as one child process, waiting for it to
    end, and ends with the exit status 0: the exit code of the child is
    neither looked at nor passed on, so the exit status of the script is the
    same whatever the child returns. *)
Theorem main_ignores_child_exit_code (c : cli) (w : world) (a : args)
    (rc : list string -> Z) :
  fst (parse_arguments c w) = Some a ->
  let p := fst (main_plan a w) in
  stdout (snd (main c w)) = stdout w +++ ["Executing: " ++ PyStr.join " " (command p)]
  /\ spawned (snd (main c w)) = spawned w +++ [command p]
  /\ fst (main c w) = 0%Z
  /\ fst (main c (with_child_returncode w rc)) = fst (main c w).
Proof.
  intros Hp p. subst p. destruct (parsed_args c w a Hp) as [Hacc ->].
  rewrite main_plan_eq, !main_eq, Hacc. cbn [fst snd].
  repeat split.
Qed.

Lemma main_ignores_child_exit_code_witness :
  stdout (snd (main example_cli example_world))
  = stdout example_world
    +++ ["Executing: " ++ PyStr.join " "
           (command (fst (main_plan (args_of example_world example_cli) example_world)))]
  /\ spawned (snd (main example_cli example_world))
     = spawned example_world
       +++ [command (fst (main_plan (args_of example_world example_cli) example_world))]
  /\ fst (main example_cli example_world) = 0%Z
  /\ fst (main example_cli (with_child_returncode example_world (fun _ => 1%Z)))
     = fst (main example_cli example_world).
Proof.
  apply (main_ignores_child_exit_code example_cli example_world
           (args_of example_world example_cli) (fun _ => 1%Z)).
  reflexivity.
Defined.

(** C8. When [--models] is left out, the models of the run are the five
    available models in their order, and the flag [--model_names] of the
    command is [--model_names=model_1,model_2,model_3,model_4,model_5]:
    that flag is among the flags and no other flag starts with
    [--model_names]. *)
Theorem default_model_names (c : cli) (w : world) (a : args) :
  cli_models c = None ->
  fst (parse_arguments c w) = Some a ->
  models a = ["model_1"; "model_2"; "model_3"; "model_4"; "model_5"]
  /\ In "--model_names=model_1,model_2,model_3,model_4,model_5"
        (command_args (fst (main_plan a w)))
  /\ In "--model_names=model_1,model_2,model_3,model_4,model_5"
        (command (fst (main_plan a w)))
  /\ forall f, In f (command_args (fst (main_plan a w))) ->
       PyStr.startswith f "--model_names" = true ->
       f = "--model_names=model_1,model_2,model_3,model_4,model_5".
Proof.
  intros Hm Hp. destruct (parsed_args c w a Hp) as [_ ->].
  rewrite main_plan_eq. cbn [fst].
  assert (models (args_of w c) = AVAILABLE_MODELS) as Hmodels
    by (unfold args_of; cbn [models]; now rewrite Hm).
  assert (In "--model_names=model_1,model_2,model_3,model_4,model_5"
            (command_args (plan_of w (args_of w c)))) as Hin.
  { unfold plan_of. cbn [command_args]. rewrite Hmodels.
    apply in_or_app. right. apply in_or_app. right. right. now left. }
  split; [exact Hmodels|]. split; [exact Hin|]. split.
  - unfold plan_of in *. cbn [command command_args] in *.
    apply in_or_app. right. apply in_or_app. right. apply in_or_app. right. exact Hin.
  - intros f Hf Hs. apply flags_cases in Hf.
    destruct Hf as [-> | [-> | [-> | (pre & x & Hpre & ->)]]].
    + now rewrite Hmodels.
    + destruct (benchmark (args_of w c)); discriminate Hs.
    + discriminate Hs.
    + now rewrite path_flag_not_model_names in Hs.
Qed.

Lemma default_model_names_witness :
  models (args_of example_world example_cli)
  = ["model_1"; "model_2"; "model_3"; "model_4"; "model_5"]
  /\ In "--model_names=model_1,model_2,model_3,model_4,model_5"
        (command_args (fst (main_plan (args_of example_world example_cli) example_world)))
  /\ In "--model_names=model_1,model_2,model_3,model_4,model_5"
        (command (fst (main_plan (args_of example_world example_cli) example_world)))
  /\ forall f,
       In f (command_args (fst (main_plan (args_of example_world example_cli) example_world))) ->
       PyStr.startswith f "--model_names" = true ->
       f = "--model_names=model_1,model_2,model_3,model_4,model_5".
Proof.
  apply (default_model_names example_cli example_world); reflexivity.
Defined.

(** C10. The benchmark option is among the flags as [--benchmark=True]
    when [--benchmark] was given and as [--benchmark=False] otherwise, and
    no other flag starts with [--benchmark]: neither a lower-case value nor
    the bare flag. *)
Theorem benchmark_flag (c : cli) (w : world) (a : args) :
  fst (parse_arguments c w) = Some a ->
  let flag := if cli_benchmark c then "--benchmark=True" else "--benchmark=False" in
  In flag (command_args (fst (main_plan a w)))
  /\ forall f, In f (command_args (fst (main_plan a w))) ->
       PyStr.startswith f "--benchmark" = true -> f = flag.
Proof.
  intros Hp flag. destruct (parsed_args c w a Hp) as [_ ->].
  rewrite main_plan_eq. cbn [fst].
  assert ("--benchmark=" ++ PyStr.of_bool (benchmark (args_of w c)) = flag) as Hflag
    by (subst flag; unfold args_of; cbn [benchmark]; now destruct (cli_benchmark c)).
  split.
  - unfold plan_of. cbn [command_args]. rewrite <- Hflag.
    apply in_or_app. right. apply in_or_app. right.
    right. right. right. right. now left.
  - intros f Hf Hs. apply flags_cases in Hf.
    destruct Hf as [-> | [-> | [-> | (pre & x & Hpre & ->)]]].
    + discriminate Hs.
    + exact Hflag.
    + discriminate Hs.
    + now rewrite path_flag_not_benchmark in Hs.
Qed.

Lemma benchmark_flag_witness :
  In "--benchmark=False"
     (command_args (fst (main_plan (args_of example_world example_cli) example_world)))
  /\ forall f,
       In f (command_args (fst (main_plan (args_of example_world example_cli) example_world))) ->
       PyStr.startswith f "--benchmark" = true -> f = "--benchmark=False".
Proof.
  apply (benchmark_flag example_cli example_world). reflexivity.
Defined.

(** ** Mount names and mount targets *)

Lemma target_path_relative (n : string) :
  PyStr.startswith n PosixPath.sep_str = false ->
  target_path_of n = ROOT_MOUNT_DIRECTORY ++ "/" ++ n.
Proof.
  intros H. unfold target_path_of, PosixPath.join. cbn [fold_left].
  unfold PosixPath.join_step. rewrite H. reflexivity.
Qed.

Lemma database_names_relative (n : string) :
  In n database_names -> PyStr.startswith n PosixPath.sep_str = false.
Proof.
  unfold database_names. cbn [In].
  intros H. repeat (destruct H as [<-|H]; [reflexivity|]). destruct H.
Qed.

Lemma request_names_relative (a : args) (r : request) :
  In r (mount_requests a) ->
  PyStr.startswith (request_name r) PosixPath.sep_str = false.
Proof.
  unfold mount_requests. intros H.
  apply in_app_or in H as [H|H]; [|apply in_app_or in H as [H|H]].
  - unfold fasta_requests in H. apply in_map_iff in H as (ip & <- & _). reflexivity.
  - now apply database_names_relative, (database_request_names a).
  - destruct H as [<-|[]]. reflexivity.
Qed.

(** C7. Two mounts of a run with distinct mount names have distinct
    targets in the container.  The target of a mount is the mount root, a
    separator and the mount name, and stands as such in the mount line: it
    depends on the mount name alone, not on the path, the access mode or
    the world. *)
Theorem mount_targets_distinct (a : args) (w : world) (r1 r2 : request) :
  In r1 (mount_requests a) -> In r2 (mount_requests a) ->
  request_name r1 <> request_name r2 ->
  target_path_of (request_name r1) <> target_path_of (request_name r2)
  /\ target_path_of (request_name r1) = ROOT_MOUNT_DIRECTORY ++ "/" ++ request_name r1
  /\ target_path_of (request_name r2) = ROOT_MOUNT_DIRECTORY ++ "/" ++ request_name r2
  /\ mounts (fst (main_plan a w)) = map (mount_line w) (mount_requests a)
  /\ forall r, In r (mount_requests a) ->
       mount_line w r
       = PosixPath.dirname (resolved w (snd (fst r))) ++ ":"
         ++ target_path_of (request_name r) ++ ":" ++ (if snd r then "ro" else "rw").
Proof.
  intros H1 H2 Hne.
  pose proof (target_path_relative _ (request_names_relative a r1 H1)) as E1.
  pose proof (target_path_relative _ (request_names_relative a r2 H2)) as E2.
  split; [|split; [exact E1 | split; [exact E2 | split]]].
  - rewrite E1, E2. intros E. apply Hne.
    unfold ROOT_MOUNT_DIRECTORY in E. cbn [append] in E. now injection E.
  - now rewrite main_plan_eq.
  - intros [[n p] ro] _. apply mount_line_eq.
Qed.

Lemma mount_targets_distinct_witness :
  let a := args_of example_world example_cli in
  let r1 : request := ("fasta_path_0", "/a/seq1.fasta", true) in
  let r2 : request := ("output", "/out", false) in
  target_path_of (request_name r1) <> target_path_of (request_name r2)
  /\ target_path_of (request_name r1) = ROOT_MOUNT_DIRECTORY ++ "/" ++ request_name r1
  /\ target_path_of (request_name r2) = ROOT_MOUNT_DIRECTORY ++ "/" ++ request_name r2
  /\ mounts (fst (main_plan a example_world)) = map (mount_line example_world) (mount_requests a)
  /\ forall r, In r (mount_requests a) ->
       mount_line example_world r
       = PosixPath.dirname (resolved example_world (snd (fst r))) ++ ":"
         ++ target_path_of (request_name r) ++ ":" ++ (if snd r then "ro" else "rw").
Proof.
  intros a r1 r2.
  apply (mount_targets_distinct a example_world r1 r2).
  - vm_compute. left. reflexivity.
  - vm_compute. do 10 right. left. reflexivity.
  - vm_compute. discriminate.
Defined.

(** ** The fasta paths of a run *)

Lemma string_of_uint_digits (d : uint) :
  all_chars is_digit (NilEmpty.string_of_uint d) = true.
Proof. induction d; simpl; auto. Qed.

Lemma digit_not_sep (a : ascii) : is_digit a = true -> Ascii.eqb a PosixPath.sep = false.
Proof.
  intros H. destruct (Ascii.eqb_spec a PosixPath.sep) as [->|]; [discriminate H | reflexivity].
Qed.

Lemma digits_sep_free (s : string) :
  all_chars is_digit s = true -> contains s PosixPath.sep = false.
Proof.
  induction s as [|a s IH]; [reflexivity|].
  cbn [all_chars contains]. intros H. apply andb_true_iff in H as [Ha Hs].
  now rewrite (digit_not_sep a Ha), (IH Hs).
Qed.

Lemma of_nat_sep_free (n : nat) : contains (PyStr.of_nat n) PosixPath.sep = false.
Proof. apply digits_sep_free, string_of_uint_digits. Qed.

Lemma of_nat_nonempty (n : nat) : PyStr.of_nat n <> "".
Proof.
  unfold PyStr.of_nat. intros H.
  assert (Nat.to_uint n = Nil) as Hn
    by (destruct (Nat.to_uint n); try discriminate H; reflexivity).
  apply (f_equal Nat.of_uint) in Hn. rewrite Unsigned.of_to in Hn.
  subst n. discriminate H.
Qed.

Lemma of_nat_inj (n m : nat) : PyStr.of_nat n = PyStr.of_nat m -> n = m.
Proof.
  unfold PyStr.of_nat. intros H.
  apply (f_equal NilEmpty.uint_of_string) in H.
  rewrite !NilEmpty.usu in H. injection H as H.
  now apply Unsigned.to_uint_inj.
Qed.

(** A string is cut in one way only at its first [c]. *)
Lemma cut_first_unique (c : ascii) (d1 d2 y1 y2 : string) :
  contains d1 c = false -> contains d2 c = false ->
  d1 ++ String c y1 = d2 ++ String c y2 -> d1 = d2 /\ y1 = y2.
Proof.
  revert d2. induction d1 as [|a d1 IH]; intros [|b d2]; cbn [append contains].
  - intros _ _ [= ->]. now split.
  - intros _ H [= <- _]. now rewrite Ascii.eqb_refl in H.
  - intros H _ [= -> _]. now rewrite Ascii.eqb_refl in H.
  - intros H1 H2 [= -> E].
    apply orb_false_iff in H1 as [_ H1]. apply orb_false_iff in H2 as [_ H2].
    destruct (IH d2 H1 H2 E) as [-> ->]. now split.
Qed.

Lemma endswith_app_free (x d : string) :
  d <> "" -> contains d PosixPath.sep = false ->
  PyStr.endswith (x ++ d) PosixPath.sep_str = false.
Proof.
  intros Hne Hd. induction x as [|a x IH].
  - cbn [append]. destruct (PyStr.endswith d PosixPath.sep_str) eqn:E; [|reflexivity].
    apply PathFacts.endswith_sep in E as [y ->].
    rewrite contains_app in Hd. apply orb_false_iff in Hd as [_ Hd]. discriminate Hd.
  - cbn [append PyStr.endswith]. rewrite IH, orb_false_r.
    apply String.eqb_neq. intros [= _ E].
    destruct x; [now apply Hne | discriminate E].
Qed.

Lemma fasta_target (i : nat) :
  target_path_of ("fasta_path_" ++ PyStr.of_nat i) = "/mnt/fasta_path_" ++ PyStr.of_nat i.
Proof. now rewrite target_path_relative. Qed.

(** Where the fasta path of index [i] is visible in the container. *)
Lemma fasta_visible_path (w : world) (i : nat) (p : string) :
  visible_path w (fasta_request (i, p))
  = "/mnt/fasta_path_" ++ PyStr.of_nat i ++ "/" ++ PosixPath.basename (resolved w p).
Proof.
  unfold visible_path, fasta_request. cbn [fst snd].
  rewrite generate_mount_eq. cbn [fst snd]. rewrite fasta_target.
  rewrite join_one. unfold PosixPath.join_step.
  rewrite (PathFacts.sep_free_relative _ (PathFacts.basename_sep_free _)).
  rewrite (endswith_app_free "/mnt/fasta_path_" (PyStr.of_nat i)
             (of_nat_nonempty i) (of_nat_sep_free i)).
  cbn [append String.eqb Ascii.eqb Bool.eqb orb].
  reflexivity.
Qed.

Lemma fasta_visible_paths_distinct (w : world) (i j : nat) (p q : string) :
  i <> j -> visible_path w (fasta_request (i, p)) <> visible_path w (fasta_request (j, q)).
Proof.
  intros Hij E. rewrite !fasta_visible_path in E.
  cbn [append] in E. injection E as E.
  apply cut_first_unique in E as [E _]; try apply of_nat_sep_free.
  now apply Hij, of_nat_inj.
Qed.

Lemma nth_error_enumerate_from {A : Type} (l : list A) (k i : nat) (x : A) :
  nth_error l i = Some x -> nth_error (PyStr.enumerate_from k l) i = Some ((k + i)%nat, x).
Proof.
  revert k i. induction l as [|y l IH]; intros k [|i]; cbn; try discriminate.
  - intros [= ->]. now rewrite Nat.add_0_r.
  - intros H. rewrite (IH (S k) i H). f_equal. f_equal. lia.
Qed.

Lemma nth_error_fasta_targets (a : args) (w : world) (i : nat) (p : string) :
  nth_error (fasta_paths a) i = Some p ->
  nth_error (target_fasta_paths (plan_of w a)) i = Some (visible_path w (fasta_request (i, p))).
Proof.
  intros H. unfold plan_of. cbn [target_fasta_paths]. unfold fasta_requests.
  rewrite map_map.
  now rewrite (map_nth_error _ _ _ (nth_error_enumerate_from _ 0 _ _ H)).
Qed.

Lemma mem_In (x : string) (l : list string) : In x l -> mem x l = true.
Proof.
  intros H. unfold mem. apply existsb_exists. exists x.
  split; [exact H | apply String.eqb_refl].
Qed.

(** C3, where it fails: the two fasta paths [/a/x.fasta] and [/b/x.fasta]
    have the same basename and different directories; the run is not
    rejected (the parser accepts it and [main] ends with the status 0), and
    the two container-visible paths are [/mnt/fasta_path_0/x.fasta] and
    [/mnt/fasta_path_1/x.fasta], which differ. *)
Lemma same_basename_accepted_without_collision :
  "/a/x.fasta" <> "/b/x.fasta"
  /\ PosixPath.basename "/a/x.fasta" = PosixPath.basename "/b/x.fasta"
  /\ PosixPath.dirname "/a/x.fasta" <> PosixPath.dirname "/b/x.fasta"
  /\ fst (parse_arguments same_name_cli example_world)
     = Some (args_of example_world same_name_cli)
  /\ fst (main same_name_cli example_world) = 0%Z
  /\ target_fasta_paths
       (fst (main_plan (args_of example_world same_name_cli) example_world))
     = ["/mnt/fasta_path_0/x.fasta"; "/mnt/fasta_path_1/x.fasta"]
  /\ "/mnt/fasta_path_0/x.fasta" <> "/mnt/fasta_path_1/x.fasta".
Proof.
  split; [discriminate|]. split; [reflexivity|].
  split; [vm_compute; discriminate|]. split; [reflexivity|].
  split; [reflexivity|]. split; [vm_compute; reflexivity | discriminate].
Qed.

(** C3, amended.  In a run whose command line the parser accepts, [main]
    checks no basename: it builds the plan and ends with the status 0,
    whatever the basenames and the directories of the fasta paths.  The
    fasta path at position [i] is visible in the container as
    [/mnt/fasta_path_i/] followed by the basename of the path made
    absolute; so two fasta paths at distinct positions have distinct
    container-visible paths, each of which keeps the basename of its
    path. *)
Theorem fasta_paths_never_collide (c : cli) (w : world) (a : args)
    (i j : nat) (pi pj : string) :
  fst (parse_arguments c w) = Some a ->
  nth_error (fasta_paths a) i = Some pi -> nth_error (fasta_paths a) j = Some pj ->
  i <> j ->
  exists ti tj,
    cli_fasta_paths c = Some (fasta_paths a)
    /\ fst (main c w) = 0%Z
    /\ nth_error (target_fasta_paths (fst (main_plan a w))) i = Some ti
    /\ nth_error (target_fasta_paths (fst (main_plan a w))) j = Some tj
    /\ ti = "/mnt/fasta_path_" ++ PyStr.of_nat i ++ "/" ++ PosixPath.basename (resolved w pi)
    /\ tj = "/mnt/fasta_path_" ++ PyStr.of_nat j ++ "/" ++ PosixPath.basename (resolved w pj)
    /\ ti <> tj
    /\ PosixPath.basename ti = PosixPath.basename (resolved w pi)
    /\ PosixPath.basename tj = PosixPath.basename (resolved w pj).
Proof.
  intros Hp Hi Hj Hij. destruct (parsed_args c w a Hp) as [Hacc ->].
  assert (forall k p,
            PosixPath.basename (visible_path w (fasta_request (k, p)))
            = PosixPath.basename (resolved w p)) as Hbase.
  { intros k p. rewrite fasta_visible_path.
    rewrite <- (append_assoc "/mnt/fasta_path_" (PyStr.of_nat k)).
    apply PathFacts.basename_app, PathFacts.basename_sep_free. }
  exists (visible_path w (fasta_request (i, pi))), (visible_path w (fasta_request (j, pj))).
  rewrite main_eq, main_plan_eq, Hacc. cbn [fst].
  split.
  { unfold accepted in Hacc. unfold args_of. cbn [fasta_paths].
    destruct (cli_fasta_paths c) as [ps|]; [reflexivity | discriminate Hacc]. }
  split; [reflexivity|].
  split; [now apply nth_error_fasta_targets|].
  split; [now apply nth_error_fasta_targets|].
  split; [apply fasta_visible_path|]. split; [apply fasta_visible_path|].
  split; [now apply fasta_visible_paths_distinct|].
  split; apply Hbase.
Qed.

Lemma fasta_paths_never_collide_witness :
  exists ti tj,
    cli_fasta_paths same_name_cli = Some (fasta_paths (args_of example_world same_name_cli))
    /\ fst (main same_name_cli example_world) = 0%Z
    /\ nth_error
         (target_fasta_paths
            (fst (main_plan (args_of example_world same_name_cli) example_world))) 0
       = Some ti
    /\ nth_error
         (target_fasta_paths
            (fst (main_plan (args_of example_world same_name_cli) example_world))) 1
       = Some tj
    /\ ti = "/mnt/fasta_path_" ++ PyStr.of_nat 0 ++ "/"
            ++ PosixPath.basename (resolved example_world "/a/x.fasta")
    /\ tj = "/mnt/fasta_path_" ++ PyStr.of_nat 1 ++ "/"
            ++ PosixPath.basename (resolved example_world "/b/x.fasta")
    /\ ti <> tj
    /\ PosixPath.basename ti = PosixPath.basename (resolved example_world "/a/x.fasta")
    /\ PosixPath.basename tj = PosixPath.basename (resolved example_world "/b/x.fasta").
Proof.
  apply (fasta_paths_never_collide same_name_cli example_world
           (args_of example_world same_name_cli) 0 1 "/a/x.fasta" "/b/x.fasta");
    try reflexivity.
  discriminate.
Defined.

(** ** The run of the example *)

(** C1, where it fails: in the run of
    [--fasta-paths /a/seq1.fasta /b/seq2.fasta --data-dir /db --output-dir /out]
    no mount is [/out:/mnt/output:rw], and that text stands nowhere in the
    printed command: the output directory is mounted through its parent
    directory, as [/:/mnt/output:rw]. *)
Lemma example_output_mount :
  ~ In "/out:/mnt/output:rw"
       (mounts (fst (main_plan (args_of example_world example_cli) example_world)))
  /\ is_infix "/out:/mnt/output:rw"
       (PyStr.join " "
          (command (fst (main_plan (args_of example_world example_cli) example_world))))
     = false
  /\ In "/:/mnt/output:rw"
       (mounts (fst (main_plan (args_of example_world example_cli) example_world))).
Proof.
  split; [|split].
  - intros H. apply mem_In in H. vm_compute in H. discriminate H.
  - vm_compute. reflexivity.
  - vm_compute. do 10 right. left. reflexivity.
Qed.

(** C1, amended.  For the run of
    [--fasta-paths /a/seq1.fasta /b/seq2.fasta --data-dir /db --output-dir /out],
    the other options left out, in any working directory and on any day:
    the mounts are the two of the fasta files, [/a:/mnt/fasta_path_0:ro]
    and [/b:/mnt/fasta_path_1:ro], one per database path under [/db] and
    one of the data directory itself, and last the mount of the parent of
    the output directory, [/:/mnt/output:rw]; they stand, joined by commas,
    after [--bind] in the command, which holds the flags
    [--fasta_paths=/mnt/fasta_path_0/seq1.fasta,/mnt/fasta_path_1/seq2.fasta]
    and [--output_dir=/mnt/output/out]. *)
Theorem example_run (w : world) :
  exists a,
    fst (parse_arguments example_cli w) = Some a
    /\ mounts (fst (main_plan a w))
       = ["/a:/mnt/fasta_path_0:ro";
          "/b:/mnt/fasta_path_1:ro";
          "/db/uniref90:/mnt/uniref90_database_path:ro";
          "/db/mgnify:/mnt/mgnify_database_path:ro";
          "/db/uniclust30/uniclust30_2018_08:/mnt/uniclust30_database_path:ro";
          "/db/bfd:/mnt/bfd_database_path:ro";
          "/db/pdb70:/mnt/pdb70_database_path:ro";
          "/:/mnt/data_dir:ro";
          "/db/pdb_mmcif:/mnt/template_mmcif_dir:ro";
          "/db/pdb_mmcif:/mnt/obsolete_pdbs_path:ro";
          "/:/mnt/output:rw"]
    /\ nth_error (command (fst (main_plan a w))) 3 = Some "--bind"
    /\ nth_error (command (fst (main_plan a w))) 4
       = Some (PyStr.join "," (mounts (fst (main_plan a w))))
    /\ In "--fasta_paths=/mnt/fasta_path_0/seq1.fasta,/mnt/fasta_path_1/seq2.fasta"
          (command (fst (main_plan a w)))
    /\ In "--output_dir=/mnt/output/out" (command (fst (main_plan a w))).
Proof.
  exists (args_of w example_cli).
  rewrite parse_arguments_eq, main_plan_eq. cbn [fst].
  split; [reflexivity|]. split; [vm_compute; reflexivity|].
  split; [reflexivity|]. split; [reflexivity|].
  split.
  - vm_compute. do 9 right. left. reflexivity.
  - vm_compute. do 18 right. left. reflexivity.
Qed.

(** ** What the parser rejects and what it hands on *)

Lemma mem_spec (x : string) (l : list string) : mem x l = true <-> In x l.
Proof.
  unfold mem. rewrite existsb_exists. split.
  - intros (y & Hy & E). apply String.eqb_eq in E. now subst y.
  - intros H. exists x. split; [exact H | apply String.eqb_refl].
Qed.





(** X2. In a run the parser accepts, the flags [--preset],
    [--max_template_date] and [--model_names] carry the values of the
    command line as they were given, or the defaults [full_dbs], the date
    of the day and the five available models when the option is left out;
    the preset is one of its two choices and the models, at least one, are
    all available models. *)
Theorem options_pass_through (c : cli) (w : world) (a : args) :
  fst (parse_arguments c w) = Some a ->
  In ("--preset=" ++ match cli_preset c with Some p => p | None => "full_dbs" end)
     (command_args (fst (main_plan a w)))
  /\ In ("--max_template_date="
         ++ match cli_max_template_date c with Some d => d | None => today w end)
        (command_args (fst (main_plan a w)))
  /\ In ("--model_names="
         ++ PyStr.join "," match cli_models c with Some ms => ms | None => AVAILABLE_MODELS end)
        (command_args (fst (main_plan a w)))
  /\ (preset a = "full_dbs" \/ preset a = "casp14")
  /\ models a <> []
  /\ forall m, In m (models a) -> In m AVAILABLE_MODELS.
Proof.
  intros Hp. destruct (parsed_args c w a Hp) as [Hacc ->].
  rewrite main_plan_eq. cbn [fst]. unfold plan_of, args_of.
  cbn [command_args preset max_template_date models].
  assert (options_valid c = true) as Hvalid.
  { unfold accepted in Hacc. destruct (cli_fasta_paths c) as [[|? ?]|];
      [discriminate Hacc | exact Hacc | discriminate Hacc]. }
  unfold options_valid in Hvalid. apply andb_true_iff in Hvalid as [Hpre Hmod].
  split; [|split; [|split; [|split; [|split]]]].
  - apply in_or_app. right. apply in_or_app. right. do 3 right. now left.
  - apply in_or_app. right. apply in_or_app. right. do 2 right. now left.
  - apply in_or_app. right. apply in_or_app. right. right. now left.
  - destruct (cli_preset c) as [p|]; [|now left].
    apply mem_spec in Hpre. destruct Hpre as [<-|[<-|[]]]; [now left | now right].
  - destruct (cli_models c) as [[|m ms]|]; [discriminate Hmod | discriminate | discriminate].
  - intros m Hm. destruct (cli_models c) as [[|m0 ms]|]; [destruct Hm | | exact Hm].
    rewrite forallb_forall in Hmod. now apply mem_spec, Hmod.
Qed.

Lemma options_pass_through_witness :
  In "--preset=full_dbs"
     (command_args (fst (main_plan (args_of example_world example_cli) example_world)))
  /\ In "--max_template_date=2021-07-30"
        (command_args (fst (main_plan (args_of example_world example_cli) example_world)))
  /\ In ("--model_names=" ++ PyStr.join "," AVAILABLE_MODELS)
        (command_args (fst (main_plan (args_of example_world example_cli) example_world)))
  /\ (preset (args_of example_world example_cli) = "full_dbs"
      \/ preset (args_of example_world example_cli) = "casp14")
  /\ models (args_of example_world example_cli) <> []
  /\ forall m, In m (models (args_of example_world example_cli)) -> In m AVAILABLE_MODELS.
Proof.
  apply (options_pass_through example_cli example_world). reflexivity.
Defined.

(** ** The database paths of a run *)

Lemma join_step_nonempty (path b : string) :
  b <> "" -> PosixPath.join_step path b <> "".
Proof.
  intros Hb. unfold PosixPath.join_step.
  destruct (PyStr.startswith b PosixPath.sep_str); [exact Hb|].
  destruct ((path =? "") || PyStr.endswith path PosixPath.sep_str);
    destruct path; cbn [append]; solve [exact Hb | discriminate].
Qed.

Lemma join_snoc (d : string) (l : list string) (y : string) :
  PosixPath.join d (l +++ [y]) = PosixPath.join_step (PosixPath.join d l) y.
Proof. unfold PosixPath.join. now rewrite fold_left_app. Qed.

Lemma join_snoc_truthy (d : string) (l : list string) (y : string) :
  y <> "" -> PyStr.truthy (PosixPath.join d (l +++ [y])) = true.
Proof.
  intros Hy. rewrite join_snoc. unfold PyStr.truthy.
  apply negb_true_iff, String.eqb_neq. now apply join_step_nonempty.
Qed.

(** The entries of [arg_paths] that pass the test [if path]: all of them,
    but for the data directory when it is the empty string. *)
Lemma arg_paths_kept (a : args) :
  filter (fun np => PyStr.truthy (snd np)) (arg_paths a)
  = if PyStr.truthy (data_dir a) then arg_paths a
    else filter (fun np => negb (fst np =? "data_dir")) (arg_paths a).
Proof.
  assert (forall x y, y <> "" -> PyStr.truthy (PosixPath.join (data_dir a) [x; y]) = true)
    as E2 by (intros x y; apply (join_snoc_truthy (data_dir a) [x] y)).
  assert (forall x x' y, y <> "" ->
            PyStr.truthy (PosixPath.join (data_dir a) [x; x'; y]) = true)
    as E3 by (intros x x' y; apply (join_snoc_truthy (data_dir a) [x; x'] y)).
  unfold arg_paths. cbn [filter fst snd].
  rewrite !E2, E3 by discriminate.
  destruct (PyStr.truthy (data_dir a)); reflexivity.
Qed.

Lemma mounts_length (a : args) (w : world) :
  List.length (mounts (plan_of w a))
  = (List.length (fasta_paths a)
     + List.length (filter (fun np => PyStr.truthy (snd np)) (arg_paths a)) + 1)%nat.
Proof.
  unfold plan_of, mount_requests, fasta_requests, database_requests. cbn [mounts].
  rewrite !length_map, !length_app, !length_map. cbn [List.length].
  assert (forall (l : list string) k, List.length (PyStr.enumerate_from k l) = List.length l) as E.
  { induction l as [|x l IH]; intros k; cbn; [reflexivity | now rewrite IH]. }
  unfold PyStr.enumerate. rewrite E. lia.
Qed.

(** X3. The test [if path] of [main] leaves out the data directory, and
    only it, when it is the empty string: the run then has one mount per
    fasta path and eight more, and no flag [--data_dir]; with any other
    data directory it has one mount per fasta path and nine more, and the
    flag [--data_dir] with the container-visible path of the data
    directory. *)
Theorem data_dir_guard (a : args) (w : world) :
  (data_dir a = "" ->
   List.length (mounts (fst (main_plan a w))) = (List.length (fasta_paths a) + 8)%nat
   /\ forall f, In f (command_args (fst (main_plan a w))) ->
        PyStr.startswith f "--data_dir=" = false)
  /\ (data_dir a <> "" ->
      List.length (mounts (fst (main_plan a w))) = (List.length (fasta_paths a) + 9)%nat
      /\ In ("--data_dir=" ++ snd (fst (generate_mount "data_dir" (data_dir a) true w)))
            (command_args (fst (main_plan a w)))).
Proof.
  rewrite main_plan_eq. cbn [fst]. rewrite mounts_length, arg_paths_kept.
  split.
  - intros E. unfold PyStr.truthy. rewrite E. cbn [String.eqb negb].
    split; [unfold arg_paths; cbn; lia|].
    intros f Hf. unfold plan_of in Hf. cbn [command_args] in Hf.
    unfold database_requests in Hf. rewrite arg_paths_kept in Hf.
    unfold PyStr.truthy in Hf. rewrite E in Hf. cbn [String.eqb negb] in Hf.
    apply in_app_or in Hf as [Hf|Hf]; [destruct Hf as [<-|[]]; reflexivity|].
    apply in_app_or in Hf as [Hf|Hf].
    + apply in_map_iff in Hf as (r & <- & Hr).
      apply in_map_iff in Hr as (np & <- & Hnp).
      apply filter_In in Hnp as [Hnp Hname].
      unfold arg_paths in Hnp. cbn [In] in Hnp.
      unfold database_flag, database_request, request_name. cbn [fst snd].
      repeat (destruct Hnp as [<-|Hnp]; [first [reflexivity | discriminate Hname]|]).
      destruct Hnp.
    + cbn [In] in Hf.
      repeat (destruct Hf as [<-|Hf]; [reflexivity|]). destruct Hf.
  - intros Hne. apply String.eqb_neq in Hne.
    unfold PyStr.truthy. rewrite Hne. cbn [negb].
    split; [unfold arg_paths; cbn; lia|].
    unfold plan_of. cbn [command_args].
    apply in_or_app. right. apply in_or_app. left.
    apply in_map_iff. exists ("data_dir", data_dir a, true). split; [reflexivity|].
    unfold database_requests. rewrite arg_paths_kept.
    unfold PyStr.truthy. rewrite Hne. cbn [negb].
    apply in_map_iff. exists ("data_dir", data_dir a). split; [reflexivity|].
    unfold arg_paths. do 5 right. now left.
Qed.

Lemma data_dir_guard_witness :
  List.length
    (mounts (fst (main_plan (mkArgs ["/a/x.fasta"] "2021-07-30" "full_dbs" false
                                    AVAILABLE_MODELS "" "results/") example_world)))
  = (List.length ["/a/x.fasta"] + 8)%nat
  /\ forall f,
       In f (command_args
               (fst (main_plan (mkArgs ["/a/x.fasta"] "2021-07-30" "full_dbs" false
                                       AVAILABLE_MODELS "" "results/") example_world))) ->
       PyStr.startswith f "--data_dir=" = false.
Proof.
  apply (proj1 (data_dir_guard (mkArgs ["/a/x.fasta"] "2021-07-30" "full_dbs" false
                                       AVAILABLE_MODELS "" "results/") example_world)).
  reflexivity.
Defined.

Lemma basename_join_snoc (d : string) (l : list string) (y : string) :
  PyStr.startswith y PosixPath.sep_str = false ->
  PosixPath.basename (PosixPath.join d (l +++ [y])) = PosixPath.basename y.
Proof. intros Hy. rewrite join_snoc. now apply PathFacts.join_step_basename. Qed.

(** Where a path under the data directory is visible: under its mount
    name, with its last component, whatever the data directory. *)
Lemma database_flag_value (w : world) (n d : string) (l : list string) (y : string) :
  PyStr.startswith y PosixPath.sep_str = false ->
  ordinary (PosixPath.basename y) = true ->
  database_flag w (n, PosixPath.join d (l +++ [y]), true)
  = "--" ++ n ++ "=" ++ PosixPath.join (target_path_of n) [PosixPath.basename y].
Proof.
  intros Hy Hord. unfold database_flag, request_name, visible_path. cbn [fst snd].
  rewrite generate_mount_eq. cbn [fst snd].
  rewrite resolved_basename by now rewrite basename_join_snoc.
  now rewrite basename_join_snoc.
Qed.

(** X4. The flags of the seven database paths derived from the data
    directory are the same in every run: they do not depend on the data
    directory, on the working directory or on any option. *)
Theorem database_flags_fixed (a : args) (w : world) :
  incl ["--uniref90_database_path=/mnt/uniref90_database_path/uniref90.fasta";
        "--mgnify_database_path=/mnt/mgnify_database_path/mgy_clusters.fa";
        "--uniclust30_database_path=/mnt/uniclust30_database_path/uniclust30_2018_08";
        "--bfd_database_path=/mnt/bfd_database_path/bfd_metaclust_clu_complete_id30_c90_final_seq.sorted_opt";
        "--pdb70_database_path=/mnt/pdb70_database_path/pdb70";
        "--template_mmcif_dir=/mnt/template_mmcif_dir/mmcif_files";
        "--obsolete_pdbs_path=/mnt/obsolete_pdbs_path/obsolete.dat"]
       (command_args (fst (main_plan a w))).
Proof.
  rewrite main_plan_eq. cbn [fst]. unfold plan_of. cbn [command_args].
  intros f Hf. apply in_or_app. right. apply in_or_app. left.
  assert (forall n l y,
            In (n, PosixPath.join (data_dir a) (l +++ [y])) (arg_paths a) ->
            PyStr.startswith y PosixPath.sep_str = false ->
            ordinary (PosixPath.basename y) = true ->
            y <> "" ->
            In ("--" ++ n ++ "=" ++ PosixPath.join (target_path_of n) [PosixPath.basename y])
               (map (database_flag w) (database_requests a))) as Hin.
  { intros n l y Hnp Hrel Hord Hy.
    rewrite <- (database_flag_value w n (data_dir a) l y Hrel Hord).
    apply in_map. unfold database_requests.
    apply in_map_iff. exists (n, PosixPath.join (data_dir a) (l +++ [y])).
    split; [reflexivity|]. apply filter_In. split; [exact Hnp|].
    cbn [snd]. now apply join_snoc_truthy. }
  cbn [In] in Hf.
  destruct Hf as [<-|[<-|[<-|[<-|[<-|[<-|[<-|[]]]]]]]].
  - apply (Hin "uniref90_database_path" ["uniref90"] "uniref90.fasta");
      [now left | reflexivity | reflexivity | discriminate].
  - apply (Hin "mgnify_database_path" ["mgnify"] "mgy_clusters.fa");
      [right; now left | reflexivity | reflexivity | discriminate].
  - apply (Hin "uniclust30_database_path" ["uniclust30"; "uniclust30_2018_08"]
               "uniclust30_2018_08");
      [do 2 right; now left | reflexivity | reflexivity | discriminate].
  - apply (Hin "bfd_database_path" ["bfd"]
               "bfd_metaclust_clu_complete_id30_c90_final_seq.sorted_opt");
      [do 3 right; now left | reflexivity | reflexivity | discriminate].
  - apply (Hin "pdb70_database_path" ["pdb70"] "pdb70");
      [do 4 right; now left | reflexivity | reflexivity | discriminate].
  - apply (Hin "template_mmcif_dir" ["pdb_mmcif"] "mmcif_files");
      [do 6 right; now left | reflexivity | reflexivity | discriminate].
  - apply (Hin "obsolete_pdbs_path" ["pdb_mmcif"] "obsolete.dat");
      [do 7 right; now left | reflexivity | reflexivity | discriminate].
Qed.

(** ** The mount names of a run *)

Lemma map_fst_enumerate_from {A : Type} (l : list A) (k : nat) :
  map fst (PyStr.enumerate_from k l) = seq k (List.length l).
Proof.
  revert k. induction l as [|x l IH]; intros k; cbn; [reflexivity | now rewrite IH].
Qed.

Lemma NoDup_map_injective {A B : Type} (f : A -> B) (l : list A) :
  (forall x y, f x = f y -> x = y) -> NoDup l -> NoDup (map f l).
Proof.
  intros Hinj H. induction H as [|x l Hx Hl IH]; cbn [map]; constructor; [|exact IH].
  intros Hin. apply Hx. apply in_map_iff in Hin as (y & E & Hy).
  now rewrite <- (Hinj y x E).
Qed.

Lemma fasta_names_NoDup (a : args) : NoDup (map request_name (fasta_requests a)).
Proof.
  unfold fasta_requests. rewrite map_map. unfold request_name, fasta_request. cbn [fst].
  rewrite <- (map_map fst (fun i => "fasta_path_" ++ PyStr.of_nat i)).
  unfold PyStr.enumerate. rewrite map_fst_enumerate_from.
  apply NoDup_map_injective; [|apply seq_NoDup].
  intros i j E. cbn [append] in E. injection E as E. now apply of_nat_inj.
Qed.

Lemma NoDup_map_fst_filter {A B : Type} (f : A * B -> bool) (l : list (A * B)) :
  NoDup (map fst l) -> NoDup (map fst (filter f l)).
Proof.
  induction l as [|x l IH]; cbn [map filter]; [trivial|].
  intros H. inversion H as [|? ? Hx Hl]; subst.
  destruct (f x); [|now apply IH].
  cbn [map]. constructor; [|now apply IH].
  intros Hin. apply Hx.
  apply in_map_iff in Hin as (y & E & Hy). apply filter_In in Hy as [Hy _].
  apply in_map_iff. now exists y.
Qed.

Lemma database_names_NoDup (a : args) : NoDup (map request_name (database_requests a)).
Proof.
  unfold database_requests. rewrite map_map.
  change (fun x => request_name (database_request x)) with (@fst string string).
  apply NoDup_map_fst_filter.
  change (map fst (arg_paths a)) with database_names.
  unfold database_names.
  repeat (constructor; [cbn [In]; intros H;
                        repeat (destruct H as [H|H]; [discriminate H|]); exact H|]).
  constructor.
Qed.

(** X5. The mount names of a run are pairwise distinct, and so are the
    mount targets in the container: no two mounts of a run are bound to the
    same target. *)
Theorem mount_names_and_targets_distinct (a : args) :
  NoDup (map request_name (mount_requests a))
  /\ NoDup (map (fun r => target_path_of (request_name r)) (mount_requests a)).
Proof.
  assert (NoDup (map request_name (mount_requests a))) as Hnames.
  { unfold mount_requests. rewrite !map_app. cbn [map].
    apply NoDup_app; [apply fasta_names_NoDup| |].
    - apply NoDup_app; [apply database_names_NoDup | repeat constructor; intros [] |].
      intros n Hn [<-|[]].
      apply in_map_iff in Hn as (r & E & Hr).
      apply database_request_names in Hr. rewrite E in Hr.
      unfold database_names in Hr. cbn [In] in Hr.
      repeat (destruct Hr as [Hr|Hr]; [discriminate Hr|]). exact Hr.
    - intros n Hn Hn'.
      apply in_map_iff in Hn as (r & <- & Hr).
      unfold fasta_requests in Hr. apply in_map_iff in Hr as (ip & <- & _).
      unfold request_name, fasta_request in Hn'. cbn [fst] in Hn'.
      apply in_app_or in Hn' as [Hn'|[Hn'|[]]]; [|discriminate Hn'].
      apply in_map_iff in Hn' as (r & E & Hr).
      apply database_request_names in Hr. unfold request_name in Hr. rewrite E in Hr.
      unfold database_names in Hr. cbn [In] in Hr.
      repeat (destruct Hr as [Hr|Hr]; [discriminate Hr|]). exact Hr. }
  split; [exact Hnames|].
  rewrite <- (map_map request_name target_path_of).
  assert (Forall (fun n => PyStr.startswith n PosixPath.sep_str = false)
                 (map request_name (mount_requests a))) as Hrel.
  { apply Forall_forall. intros n Hn. apply in_map_iff in Hn as (r & <- & Hr).
    now apply (request_names_relative a). }
  induction Hnames as [|n l Hn Hl IH]; cbn [map]; [constructor|].
  inversion Hrel as [|? ? Hrn Hrl]; subst.
  constructor; [|now apply IH].
  intros Hin. apply Hn.
  apply in_map_iff in Hin as (m & E & Hm).
  rewrite Forall_forall in Hrl.
  rewrite (target_path_relative n Hrn), (target_path_relative m (Hrl m Hm)) in E.
  unfold ROOT_MOUNT_DIRECTORY in E. cbn [append] in E. injection E as E.
  now subst m.
Qed.

(** ** Directory and basename of a normalised path *)

Section PathShape.

Import PosixPath.

Lemma take_app (x y : string) : PyStr.take (String.length x) (x ++ y) = x.
Proof. induction x as [|a x IH]; simpl; [now destruct y | now rewrite IH]. Qed.

Lemma slice_to_cut (x y : string) :
  contains y sep = false ->
  PyStr.slice_to (x ++ String sep y) (PyStr.rfind (x ++ String sep y) sep + 1)
  = x ++ String sep "".
Proof.
  intros Hy. rewrite (rfind_app_last sep x y Hy). unfold PyStr.slice_to.
  rewrite (append_String_assoc x sep y).
  replace (PyStr.len x + 1)%Z with (PyStr.len (x ++ String sep ""))
    by (unfold PyStr.len; rewrite string_length_app; simpl; lia).
  rewrite clamp_length_prefix. apply take_app.
Qed.

Lemma all_chars_app (f : ascii -> bool) (x y : string) :
  all_chars f (x ++ y) = all_chars f x && all_chars f y.
Proof.
  induction x as [|a x IH]; cbn [append all_chars]; [reflexivity|].
  now rewrite IH, andb_assoc.
Qed.

(** The test [head != sep*len(head)] of [dirname]. *)
Lemma eqb_repeat_sep (s : string) :
  (s =? PyStr.repeat sep (String.length s)) = all_chars is_sep s.
Proof.
  induction s as [|a s IH]; [reflexivity|].
  cbn [String.length PyStr.repeat all_chars String.eqb]. rewrite IH.
  unfold is_sep. now destruct (Ascii.eqb a sep).
Qed.

Lemma all_sep_repeat (k : nat) : all_chars is_sep (PyStr.repeat sep k) = true.
Proof. induction k as [|k IH]; [reflexivity | exact IH]. Qed.

Lemma clean_not_all_sep (y : string) : clean y -> all_chars is_sep y = false.
Proof.
  intros [Hne Hfree]. destruct y as [|a y]; [now destruct Hne|].
  cbn [contains all_chars] in *. apply orb_false_iff in Hfree as [Ha _].
  unfold is_sep. now rewrite Ha.
Qed.

Lemma ends_clean_not_all_sep (s t : string) :
  ends_clean s -> all_chars is_sep (s ++ t) = false.
Proof.
  intros (z & y & -> & Hy). rewrite !all_chars_app, (clean_not_all_sep y Hy).
  now rewrite andb_false_r.
Qed.

Lemma dirname_plain (y : string) : contains y sep = false -> dirname y = "".
Proof.
  intros Hy. unfold dirname. rewrite (rfind_absent sep y Hy).
  unfold PyStr.slice_to. cbn [Z.add Z.opp Z.pos_sub]. rewrite clamp_0.
  now destruct y.
Qed.

(** [dirname] of a path with a separator: what stands up to the last
    separator, without its trailing separators unless it is made of
    separators only. *)
Lemma dirname_cut (x y : string) :
  contains y sep = false ->
  dirname (x ++ String sep y)
  = if all_chars is_sep (x ++ String sep "") then x ++ String sep ""
    else PyStr.rstrip (x ++ String sep "") sep.
Proof.
  intros Hy. unfold dirname. rewrite (slice_to_cut x y Hy), eqb_repeat_sep.
  assert (PyStr.truthy (x ++ String sep "") = true) as Ht by now destruct x.
  rewrite Ht. cbn [andb].
  now destruct (all_chars is_sep (x ++ String sep "")).
Qed.

Lemma rstrip_app_sep (s : string) (c : ascii) :
  PyStr.rstrip (s ++ String c "") c = PyStr.rstrip s c.
Proof.
  induction s as [|a s IH]; cbn [append PyStr.rstrip].
  - now rewrite Ascii.eqb_refl.
  - now rewrite IH.
Qed.

Lemma rstrip_free (s : string) (c : ascii) :
  contains s c = false -> PyStr.rstrip s c = s.
Proof.
  induction s as [|a s IH]; [reflexivity|].
  cbn [contains PyStr.rstrip]. intros H. apply orb_false_iff in H as [Ha Hs].
  rewrite (IH Hs), Ha. now destruct s.
Qed.

Lemma rstrip_ends_clean (s : string) : ends_clean s -> PyStr.rstrip s sep = s.
Proof.
  intros (z & y & -> & Hne & Hfree).
  induction z as [|a z IH]; cbn [append].
  - now apply rstrip_free.
  - cbn [PyStr.rstrip]. rewrite IH.
    destruct (z ++ y) eqn:E; [|reflexivity].
    destruct z; [now destruct Hne | discriminate E].
Qed.

Lemma rstrip_empty (s : string) :
  PyStr.rstrip s sep = "" -> all_chars is_sep s = true.
Proof.
  induction s as [|a s IH]; [reflexivity|].
  cbn [PyStr.rstrip all_chars]. unfold is_sep.
  destruct (PyStr.rstrip s sep); [|discriminate].
  destruct (Ascii.eqb a sep); [|discriminate]. intros _. now apply IH.
Qed.

Lemma ends_clean_no_trailing_sep (s : string) :
  ends_clean s -> s <> "" /\ PyStr.endswith s sep_str = false.
Proof.
  intros (z & y & -> & Hne & Hfree). split.
  - destruct z; [exact Hne | discriminate].
  - now apply endswith_app_free.
Qed.

(** A path [D/b] whose directory part [D] ends with a component: its
    directory is [D], its basename [b], and the two join back to it. *)
Lemma recompose_deep (d b : string) :
  ends_clean d -> contains b sep = false ->
  dirname (d ++ String sep b) = d
  /\ join_step (dirname (d ++ String sep b)) (basename (d ++ String sep b))
     = d ++ String sep b.
Proof.
  intros Hd Hb.
  assert (dirname (d ++ String sep b) = d) as E.
  { rewrite (dirname_cut d b Hb), (ends_clean_not_all_sep d _ Hd).
    rewrite rstrip_app_sep. now apply rstrip_ends_clean. }
  split; [exact E|].
  rewrite E, (PathFacts.basename_app d b Hb). unfold join_step.
  rewrite (PathFacts.sep_free_relative b Hb).
  destruct (ends_clean_no_trailing_sep d Hd) as [Hne Hend].
  apply String.eqb_neq in Hne. now rewrite Hne, Hend.
Qed.

(** A path made of separators and one last component, which may be empty. *)
Lemma recompose_root (k : nat) (b : string) :
  contains b sep = false ->
  join_step (dirname (PyStr.repeat sep k ++ b)) (basename (PyStr.repeat sep k ++ b))
  = PyStr.repeat sep k ++ b.
Proof.
  intros Hb. destruct k as [|k].
  - cbn [PyStr.repeat append].
    rewrite (dirname_plain b Hb), (PathFacts.basename_plain b Hb).
    unfold join_step. now rewrite (PathFacts.sep_free_relative b Hb).
  - rewrite PathFacts.repeat_snoc, <- append_String_assoc.
    rewrite (dirname_cut _ b Hb), (PathFacts.basename_app _ b Hb).
    rewrite <- PathFacts.repeat_snoc, all_sep_repeat.
    unfold join_step. rewrite (PathFacts.sep_free_relative b Hb).
    assert (PyStr.endswith (PyStr.repeat sep (S k)) sep_str = true) as He
      by (rewrite PathFacts.repeat_snoc;
          apply (PathFacts.endswith_app (PyStr.repeat sep k) sep_str)).
    rewrite He, orb_true_r, PathFacts.repeat_snoc.
    now rewrite <- append_String_assoc.
Qed.

Lemma split_sep_free (s : string) (c : ascii) :
  Forall (fun x => contains x c = false) (PyStr.split s c).
Proof.
  induction s as [|a s IH]; cbn [PyStr.split].
  - now repeat constructor.
  - destruct (Ascii.eqb a c) eqn:Ha; [now constructor|].
    destruct (PyStr.split s c) as [|h t]; [now repeat constructor; cbn; rewrite Ha|].
    inversion IH; subst. constructor; [|assumption].
    cbn [contains]. now rewrite Ha.
Qed.

Lemma Forall_removelast {A : Type} (P : A -> Prop) (l : list A) :
  Forall P l -> Forall P (removelast l).
Proof.
  induction 1 as [|x l Hx Hl IH]; [constructor|].
  cbn [removelast]. destruct l; [constructor | now constructor].
Qed.

Lemma normpath_step_clean (k : nat) (l : list string) (comp : string) :
  Forall clean l -> contains comp sep = false -> Forall clean (normpath_step k l comp).
Proof.
  intros Hl Hc. unfold normpath_step.
  destruct (comp =? "") eqn:E; [exact Hl|]. cbn [orb].
  destruct (comp =? "."); [exact Hl|].
  match goal with |- Forall _ (if ?t then _ else _) => destruct t end.
  - apply Forall_app. split; [exact Hl|]. constructor; [|constructor].
    split; [now apply String.eqb_neq | exact Hc].
  - destruct l; [exact Hl | now apply Forall_removelast].
Qed.

Lemma normpath_fold_clean (k : nat) (comps l : list string) :
  Forall clean l -> Forall (fun x => contains x sep = false) comps ->
  Forall clean (fold_left (normpath_step k) comps l).
Proof.
  intros Hl Hc. revert l Hl.
  induction Hc as [|c comps Hc _ IH]; intros l Hl; cbn [fold_left]; [exact Hl|].
  apply IH. now apply normpath_step_clean.
Qed.

(** The shape of a normalised path: separators, then clean components
    joined by separators. *)
Lemma normpath_shape (q : string) :
  exists k l, Forall clean l /\ normpath q = PyStr.repeat sep k ++ PyStr.join sep_str l.
Proof.
  assert (exists k l, Forall clean l /\ "." = PyStr.repeat sep k ++ PyStr.join sep_str l)
    as Hdot.
  { exists 0%nat, ["."]. split; [|reflexivity].
    constructor; [|constructor]. split; [discriminate | reflexivity]. }
  unfold normpath. destruct (q =? ""); [exact Hdot|].
  match goal with
  | |- context [PyStr.repeat sep ?k ++ _] => generalize k
  end.
  intros k.
  match goal with |- context [if ?t then _ else _] => destruct t end; [|exact Hdot].
  exists k, (fold_left (normpath_step k) (PyStr.split q sep) []).
  split; [|reflexivity].
  apply normpath_fold_clean; [constructor | apply split_sep_free].
Qed.

Lemma clean_join_ends_clean (x : string) (l : list string) :
  Forall clean l -> l <> [] -> ends_clean (x ++ PyStr.join sep_str l).
Proof.
  intros Hl Hne. destruct (exists_last Hne) as (init & b & ->).
  apply Forall_app in Hl as [_ Hb]. inversion Hb as [|? ? Hclean _]; subst.
  unfold PyStr.join. rewrite PathFacts.concat_snoc.
  destruct init as [|c init].
  - now exists x, b.
  - exists (x ++ String.concat sep_str (c :: init) ++ sep_str), b.
    split; [now rewrite !append_assoc | exact Hclean].
Qed.

(** A normalised path is its directory joined with its basename. *)
Lemma recompose_shape (k : nat) (l : list string) :
  Forall clean l ->
  join_step (dirname (PyStr.repeat sep k ++ PyStr.join sep_str l))
            (basename (PyStr.repeat sep k ++ PyStr.join sep_str l))
  = PyStr.repeat sep k ++ PyStr.join sep_str l.
Proof.
  intros Hl. destruct l as [|c l].
  { now apply recompose_root. }
  assert (c :: l <> []) as Hne by discriminate.
  destruct (exists_last Hne) as (init & b & E). rewrite E in *. clear E Hne c l.
  apply Forall_app in Hl as [Hinit Hb]. inversion Hb as [|? ? [_ Hfree] _]; subst.
  unfold PyStr.join. rewrite PathFacts.concat_snoc.
  destruct init as [|c init].
  - now apply recompose_root.
  - replace (PyStr.repeat sep k ++ String.concat sep_str (c :: init) ++ sep_str ++ b)
      with ((PyStr.repeat sep k ++ PyStr.join sep_str (c :: init)) ++ String sep b)
      by (unfold PyStr.join; now rewrite append_assoc).
    apply recompose_deep; [|exact Hfree].
    apply clean_join_ends_clean; [exact Hinit | discriminate].
Qed.

Lemma recompose_normpath (q : string) :
  join_step (dirname (normpath q)) (basename (normpath q)) = normpath q.
Proof.
  destruct (normpath_shape q) as (k & l & Hl & ->). now apply recompose_shape.
Qed.

End PathShape.

Lemma resolved_normpath (w : world) (p : string) :
  exists q, resolved w p = PosixPath.normpath q.
Proof.
  rewrite resolved_eq. destruct (PosixPath.isabs p); eexists; reflexivity.
Qed.

(** X6. The mount of a path binds the directory of the absolute path to the
    mount target, and the path is visible as the target joined with the
    basename of the absolute path; that directory joined with that basename
    is the absolute path itself, so the container-visible path names the
    very file or directory the path names on the host. *)
Theorem mount_source_and_basename (w : world) (n p : string) (ro : bool) :
  let r := fst (abspath p w) in
  let source := PosixPath.dirname r in
  let target := PosixPath.join ROOT_MOUNT_DIRECTORY [n] in
  fst (fst (generate_mount n p ro w))
  = source ++ ":" ++ target ++ ":" ++ (if ro then "ro" else "rw")
  /\ snd (fst (generate_mount n p ro w)) = PosixPath.join target [PosixPath.basename r]
  /\ PosixPath.join source [PosixPath.basename r] = r.
Proof.
  intros r source target. rewrite generate_mount_eq. cbn [fst snd].
  split; [reflexivity|]. split; [reflexivity|].
  subst source r. fold (resolved w p).
  destruct (resolved_normpath w p) as [q ->].
  rewrite join_one. apply recompose_normpath.
Qed.

(** ** Absolute sources and trailing separators *)

Section Absolute.

Import PosixPath.

Lemma isabs_cons (s : string) : isabs s = true <-> exists s', s = String sep s'.
Proof.
  split; [apply PathFacts.startswith_sep|]. intros [s' ->]. reflexivity.
Qed.

Lemma normpath_absolute (q : string) : isabs q = true -> isabs (normpath q) = true.
Proof.
  intros Hq. unfold normpath. unfold isabs in Hq. rewrite Hq.
  destruct (q =? "") eqn:E; [apply String.eqb_eq in E; now subst q|].
  destruct (PyStr.startswith q (PyStr.repeat sep 2)
            && negb (PyStr.startswith q (PyStr.repeat sep 3))); reflexivity.
Qed.

Lemma rstrip_absolute (t : string) :
  all_chars is_sep (String sep t) = false ->
  isabs (PyStr.rstrip (String sep t) sep) = true.
Proof.
  intros H. cbn [PyStr.rstrip].
  destruct (PyStr.rstrip t sep) eqn:E; [|reflexivity].
  apply rstrip_empty in E. cbn [all_chars] in H.
  rewrite E, andb_true_r in H. discriminate H.
Qed.

Lemma dirname_absolute (r : string) : isabs r = true -> isabs (dirname r) = true.
Proof.
  intros Hr. apply isabs_cons in Hr as [r' ->].
  destruct (contains r' sep) eqn:Hc.
  - destruct (cut_at_last sep r' Hc) as (x & y & -> & Hy).
    change (String sep (x ++ String sep y)) with (String sep x ++ String sep y).
    rewrite (dirname_cut _ y Hy).
    destruct (all_chars is_sep (String sep x ++ String sep "")) eqn:E; [reflexivity|].
    now apply rstrip_absolute.
  - change (String sep r') with ("" ++ String sep r').
    now rewrite (dirname_cut "" r' Hc).
Qed.

Lemma join_step_absolute (c p : string) : isabs c = true -> isabs (join_step c p) = true.
Proof.
  intros Hc. unfold join_step.
  destruct (PyStr.startswith p sep_str) eqn:Hp; [exact Hp|].
  apply isabs_cons in Hc as [c' ->].
  now destruct ((String sep c' =? "") || PyStr.endswith (String sep c') sep_str).
Qed.

Lemma resolved_absolute (w : world) (p : string) :
  isabs (cwd w) = true -> isabs (resolved w p) = true.
Proof.
  intros Hc. rewrite resolved_eq. destruct (isabs p) eqn:Hp.
  - now apply normpath_absolute.
  - rewrite join_one. now apply normpath_absolute, join_step_absolute.
Qed.

Lemma startswith_not_all_sep (q t : string) (n : nat) :
  all_chars is_sep q = false ->
  PyStr.startswith (q ++ t) (PyStr.repeat sep n) = PyStr.startswith q (PyStr.repeat sep n).
Proof.
  revert n. induction q as [|a q IH]; intros n H; [discriminate H|].
  destruct n as [|n]; [reflexivity|].
  cbn [append PyStr.repeat PyStr.startswith]. cbn [all_chars] in H. unfold is_sep in H.
  destruct (Ascii.eqb a sep); [|reflexivity].
  cbn [andb] in *. now apply IH.
Qed.

Lemma startswith_sep_app (q t : string) :
  all_chars is_sep q = false ->
  PyStr.startswith (q ++ t) sep_str = PyStr.startswith q sep_str.
Proof. apply (startswith_not_all_sep q t 1). Qed.

Lemma ordinary_clean (b : string) :
  ordinary b = true -> contains b sep = false -> clean b.
Proof.
  intros H Hfree. destruct (PathFacts.ordinary_inv b H) as (Hne & _).
  now split.
Qed.

Lemma ordinary_basename_not_all_sep (q : string) :
  ordinary (basename q) = true -> all_chars is_sep q = false.
Proof.
  intros H.
  pose proof (ordinary_clean _ H (PathFacts.basename_sep_free q)) as Hclean.
  destruct (PathFacts.basename_cut q) as [E | [x E]]; rewrite E.
  - now apply clean_not_all_sep.
  - rewrite all_chars_app. cbn [all_chars].
    rewrite (clean_not_all_sep _ Hclean). now rewrite !andb_false_r.
Qed.

(** [normpath] drops a separator that follows the last component. *)
Lemma normpath_trailing_sep (q : string) :
  ordinary (basename q) = true -> normpath (q ++ sep_str) = normpath q.
Proof.
  intros H. pose proof (ordinary_basename_not_all_sep q H) as Hq.
  assert (q <> "") as Hne by (intros ->; discriminate Hq).
  unfold normpath.
  assert ((q ++ sep_str =? "") = false) as E1
    by (apply String.eqb_neq; destruct q; discriminate).
  assert ((q =? "") = false) as E2 by now apply String.eqb_neq.
  rewrite E1, E2.
  change sep_str with (PyStr.repeat sep 1).
  rewrite !(startswith_not_all_sep q _ _ Hq).
  change (PyStr.repeat sep 1) with (String sep "").
  rewrite (split_app sep q ""). cbn [PyStr.split].
  now rewrite !PathFacts.fold_left_snoc.
Qed.

Lemma resolved_trailing_sep (w : world) (p : string) :
  ordinary (basename p) = true -> resolved w (p ++ sep_str) = resolved w p.
Proof.
  intros H. pose proof (ordinary_basename_not_all_sep p H) as Hp.
  rewrite !resolved_eq. unfold isabs.
  rewrite (startswith_sep_app p sep_str Hp).
  destruct (PyStr.startswith p sep_str) eqn:Habs.
  - now apply normpath_trailing_sep.
  - rewrite !join_one.
    assert (join_step (cwd w) (p ++ sep_str) = join_step (cwd w) p ++ sep_str) as E.
    { unfold join_step. rewrite (startswith_sep_app p sep_str Hp), Habs.
      destruct ((cwd w =? "") || PyStr.endswith (cwd w) sep_str);
        now rewrite !append_assoc. }
    rewrite E. apply normpath_trailing_sep.
    now rewrite PathFacts.join_step_basename.
Qed.

End Absolute.

(** X7. When the working directory is an absolute path, every path is
    resolved to an absolute path and the source of its mount, the parent
    directory, is absolute too: the mount line starts with a separator,
    whether the path was given absolute or relative. *)
Theorem mount_source_absolute (w : world) (n p : string) (ro : bool) :
  PosixPath.isabs (cwd w) = true ->
  PosixPath.isabs (fst (abspath p w)) = true
  /\ PosixPath.isabs (PosixPath.dirname (fst (abspath p w))) = true
  /\ PyStr.startswith (fst (fst (generate_mount n p ro w))) "/" = true.
Proof.
  intros Hc. fold (resolved w p).
  pose proof (resolved_absolute w p Hc) as Hr.
  pose proof (dirname_absolute _ Hr) as Hd.
  split; [exact Hr|]. split; [exact Hd|].
  rewrite generate_mount_eq. cbn [fst].
  apply isabs_cons in Hd as [d ->]. reflexivity.
Qed.

Lemma mount_source_absolute_witness :
  PosixPath.isabs (fst (abspath "data/seq1.fasta" example_world)) = true
  /\ PosixPath.isabs (PosixPath.dirname (fst (abspath "data/seq1.fasta" example_world))) = true
  /\ PyStr.startswith
       (fst (fst (generate_mount "fasta_path_0" "data/seq1.fasta" true example_world))) "/"
     = true.
Proof.
  apply (mount_source_absolute example_world "fasta_path_0" "data/seq1.fasta" true).
  reflexivity.
Defined.

(** X8. A separator after the last component of a path changes nothing:
    when the basename of a path is an ordinary name, the path followed by
    a separator has the same mount line and the same container-visible
    path as the path itself. *)
Theorem trailing_separator_ignored (w : world) (n p : string) (ro : bool) :
  ordinary (PosixPath.basename p) = true ->
  generate_mount n (p ++ "/") ro w = generate_mount n p ro w.
Proof.
  intros H. rewrite !generate_mount_eq.
  pose proof (resolved_trailing_sep w p H) as E.
  change PosixPath.sep_str with "/" in E. now rewrite E.
Qed.

Lemma trailing_separator_ignored_witness :
  generate_mount "output" ("results" ++ "/") false example_world
  = generate_mount "output" "results" false example_world.
Proof.
  apply (trailing_separator_ignored example_world "output" "results" false).
  reflexivity.
Defined.

(** ** Fasta paths, mounts and flags side by side *)

Lemma nth_error_fasta_mounts (a : args) (w : world) (i : nat) (p : string) :
  nth_error (fasta_paths a) i = Some p ->
  nth_error (mounts (plan_of w a)) i = Some (mount_line w (fasta_request (i, p))).
Proof.
  intros H. unfold plan_of, mount_requests. cbn [mounts]. rewrite map_app.
  assert (nth_error (map (mount_line w) (fasta_requests a)) i
          = Some (mount_line w (fasta_request (i, p)))) as E.
  { unfold fasta_requests. rewrite map_map.
    now rewrite (map_nth_error _ _ _ (nth_error_enumerate_from _ 0 _ _ H)). }
  rewrite nth_error_app1; [exact E|].
  apply nth_error_Some. now rewrite E.
Qed.

(** X9. The fasta paths, their mounts and the flag [--fasta_paths] go side
    by side: the mount at position [i] binds the directory of the fasta
    path at position [i] to [/mnt/fasta_path_i], read-only; the path at
    position [i] of the flag is the basename of that fasta path under
    [/mnt/fasta_path_i]; the flag comes first among the flags and lists as
    many paths as there are fasta paths. *)
Theorem fasta_mounts_and_flag (a : args) (w : world) (i : nat) (p : string) :
  nth_error (fasta_paths a) i = Some p ->
  nth_error (mounts (fst (main_plan a w))) i
  = Some (PosixPath.dirname (fst (abspath p w)) ++ ":/mnt/fasta_path_" ++ PyStr.of_nat i ++ ":ro")
  /\ nth_error (target_fasta_paths (fst (main_plan a w))) i
     = Some ("/mnt/fasta_path_" ++ PyStr.of_nat i ++ "/"
             ++ PosixPath.basename (fst (abspath p w)))
  /\ hd_error (command_args (fst (main_plan a w)))
     = Some ("--fasta_paths=" ++ PyStr.join "," (target_fasta_paths (fst (main_plan a w))))
  /\ List.length (target_fasta_paths (fst (main_plan a w))) = List.length (fasta_paths a).
Proof.
  intros H. rewrite main_plan_eq. cbn [fst]. fold (resolved w p).
  split; [|split; [|split]].
  - rewrite (nth_error_fasta_mounts a w i p H). f_equal.
    unfold fasta_request. cbn [fst snd]. rewrite mount_line_eq, fasta_target.
    now rewrite !append_assoc.
  - rewrite (nth_error_fasta_targets a w i p H). f_equal. apply fasta_visible_path.
  - reflexivity.
  - unfold plan_of, fasta_requests. cbn [target_fasta_paths].
    rewrite !length_map. unfold PyStr.enumerate.
    rewrite <- (length_map fst), map_fst_enumerate_from. apply length_seq.
Qed.

Lemma fasta_mounts_and_flag_witness :
  nth_error (mounts (fst (main_plan (args_of example_world example_cli) example_world))) 1
  = Some (PosixPath.dirname (fst (abspath "/b/seq2.fasta" example_world))
          ++ ":/mnt/fasta_path_" ++ PyStr.of_nat 1 ++ ":ro")
  /\ nth_error
       (target_fasta_paths (fst (main_plan (args_of example_world example_cli) example_world)))
       1
     = Some ("/mnt/fasta_path_" ++ PyStr.of_nat 1 ++ "/"
             ++ PosixPath.basename (fst (abspath "/b/seq2.fasta" example_world)))
  /\ hd_error (command_args (fst (main_plan (args_of example_world example_cli) example_world)))
     = Some ("--fasta_paths="
             ++ PyStr.join ","
                  (target_fasta_paths
                     (fst (main_plan (args_of example_world example_cli) example_world))))
  /\ List.length
       (target_fasta_paths (fst (main_plan (args_of example_world example_cli) example_world)))
     = List.length (fasta_paths (args_of example_world example_cli)).
Proof.
  apply (fasta_mounts_and_flag (args_of example_world example_cli) example_world 1
           "/b/seq2.fasta").
  reflexivity.
Defined.

(** ** The defaults of the directories *)

Lemma visible_path_ordinary (w : world) (n p : string) (ro : bool) :
  ordinary (PosixPath.basename p) = true ->
  visible_path w (n, p, ro) = PosixPath.join (target_path_of n) [PosixPath.basename p].
Proof.
  intros H. unfold visible_path. rewrite generate_mount_eq. cbn [fst snd].
  now rewrite resolved_basename.
Qed.

Lemma visible_path_trailing (w : world) (n p : string) (ro : bool) :
  ordinary (PosixPath.basename p) = true ->
  visible_path w (n, p ++ "/", ro) = PosixPath.join (target_path_of n) [PosixPath.basename p].
Proof.
  intros H. unfold visible_path.
  rewrite (trailing_separator_ignored w n p ro H).
  now apply (visible_path_ordinary w n p ro).
Qed.

(** X10. When [--output-dir] and [--data-dir] are left out, the flags of a
    run hold [--output_dir=/mnt/output/results] and
    [--data_dir=/mnt/data_dir/databases], whatever the working directory:
    the separator that ends the defaults [results/] and [./databases/]
    does not show. *)
Theorem default_directories (c : cli) (w : world) (a : args) :
  cli_output_dir c = None -> cli_data_dir c = None ->
  fst (parse_arguments c w) = Some a ->
  In "--output_dir=/mnt/output/results" (command_args (fst (main_plan a w)))
  /\ In "--data_dir=/mnt/data_dir/databases" (command_args (fst (main_plan a w))).
Proof.
  intros Ho Hd Hp. destruct (parsed_args c w a Hp) as [_ ->].
  rewrite main_plan_eq. cbn [fst]. unfold plan_of. cbn [command_args].
  assert (output_dir (args_of w c) = "results" ++ "/") as Eo
    by (unfold args_of; cbn [output_dir]; now rewrite Ho).
  assert (data_dir (args_of w c) = "./databases" ++ "/") as Ed
    by (unfold args_of; cbn [data_dir]; now rewrite Hd).
  split.
  - apply in_or_app. right. apply in_or_app. right. left.
    unfold output_request. rewrite Eo.
    now rewrite (visible_path_trailing w "output" "results" false).
  - apply in_or_app. right. apply in_or_app. left.
    apply in_map_iff. exists ("data_dir", "./databases" ++ "/", true). split.
    + unfold database_flag, request_name. cbn [fst].
      now rewrite (visible_path_trailing w "data_dir" "./databases" true).
    + unfold database_requests.
      apply in_map_iff. exists ("data_dir", "./databases" ++ "/"). split; [reflexivity|].
      apply filter_In. split; [|reflexivity].
      unfold arg_paths. rewrite Ed. do 5 right. now left.
Qed.

Lemma default_directories_witness :
  In "--output_dir=/mnt/output/results"
     (command_args (fst (main_plan (args_of example_world same_name_cli) example_world)))
  /\ In "--data_dir=/mnt/data_dir/databases"
        (command_args (fst (main_plan (args_of example_world same_name_cli) example_world))).
Proof.
  apply (default_directories same_name_cli example_world); reflexivity.
Defined.

(** ** The fields of a mount line *)

Section Fields.

Import PosixPath.

Lemma count_char_app (c : ascii) (x y : string) :
  count_char c (x ++ y) = (count_char c x + count_char c y)%nat.
Proof.
  induction x as [|a x IH]; cbn [append count_char]; [reflexivity|].
  rewrite IH. lia.
Qed.

Lemma count_char_free (c : ascii) (s : string) :
  contains s c = false <-> count_char c s = 0%nat.
Proof.
  induction s as [|a s IH]; cbn [contains count_char]; [tauto|].
  destruct (Ascii.eqb a c); cbn [orb]; [split; [discriminate | lia]|].
  rewrite IH. cbn. tauto.
Qed.

(** [split] gives one field more than there are separators. *)
Lemma split_length (c : ascii) (s : string) :
  List.length (PyStr.split s c) = S (count_char c s).
Proof.
  induction s as [|a s IH]; cbn [PyStr.split count_char]; [reflexivity|].
  destruct (Ascii.eqb a c); cbn [List.length]; [now rewrite IH|].
  destruct (PyStr.split s c) as [|h t]; [discriminate IH | exact IH].
Qed.

Lemma split_three (c : ascii) (s t m : string) :
  contains s c = false -> contains t c = false -> contains m c = false ->
  PyStr.split (s ++ String c (t ++ String c m)) c = [s; t; m].
Proof.
  intros Hs Ht Hm.
  now rewrite !split_app, !split_no_sep.
Qed.

Lemma digits_free (c : ascii) (s : string) :
  is_digit c = false -> all_chars is_digit s = true -> contains s c = false.
Proof.
  intros Hc. induction s as [|a s IH]; [reflexivity|].
  cbn [all_chars contains]. intros H. apply andb_true_iff in H as [Ha Hs].
  rewrite (IH Hs), orb_false_r.
  destruct (Ascii.eqb_spec a c) as [->|]; [congruence | reflexivity].
Qed.

Lemma request_names_colon_free (a : args) (r : request) :
  In r (mount_requests a) -> contains (request_name r) colon = false.
Proof.
  unfold mount_requests. intros H.
  apply in_app_or in H as [H|H]; [|apply in_app_or in H as [H|H]].
  - unfold fasta_requests in H. apply in_map_iff in H as (ip & <- & _).
    unfold request_name, fasta_request. cbn [fst].
    rewrite contains_app. cbn [orb].
    replace (contains "fasta_path_" colon) with false by reflexivity. cbn [orb].
    apply digits_free; [reflexivity | apply string_of_uint_digits].
  - apply database_request_names in H. unfold database_names in H. cbn [In] in H.
    repeat (destruct H as [<-|H]; [reflexivity|]). destruct H.
  - destruct H as [<-|[]]. reflexivity.
Qed.

Lemma split_free (c c' : ascii) (s : string) :
  contains s c' = false -> Forall (fun x => contains x c' = false) (PyStr.split s c).
Proof.
  induction s as [|a s IH]; cbn [PyStr.split contains].
  - intros _. now repeat constructor.
  - intros H. apply orb_false_iff in H as [Ha Hs]. specialize (IH Hs).
    destruct (Ascii.eqb a c); [now constructor|].
    destruct (PyStr.split s c) as [|h t]; [repeat constructor; cbn; now rewrite Ha|].
    inversion IH; subst. constructor; [|assumption].
    cbn [contains]. now rewrite Ha.
Qed.

Lemma normpath_step_Forall (P : string -> Prop) (k : nat) (l : list string) (comp : string) :
  Forall P l -> P comp -> Forall P (normpath_step k l comp).
Proof.
  intros Hl Hc. unfold normpath_step.
  destruct ((comp =? "") || (comp =? ".")); [exact Hl|].
  match goal with |- Forall _ (if ?t then _ else _) => destruct t end.
  - apply Forall_app. split; [exact Hl | now repeat constructor].
  - destruct l; [exact Hl | now apply Forall_removelast].
Qed.

Lemma normpath_fold_Forall (P : string -> Prop) (k : nat) (comps l : list string) :
  Forall P l -> Forall P comps -> Forall P (fold_left (normpath_step k) comps l).
Proof.
  intros Hl Hc. revert l Hl.
  induction Hc as [|c comps Hc _ IH]; intros l Hl; cbn [fold_left]; [exact Hl|].
  apply IH. now apply normpath_step_Forall.
Qed.

Lemma concat_free (c : ascii) (s : string) (l : list string) :
  contains s c = false -> Forall (fun x => contains x c = false) l ->
  contains (String.concat s l) c = false.
Proof.
  intros Hs Hl. induction Hl as [|x l Hx Hl IH]; [reflexivity|].
  destruct l as [|y l]; [exact Hx|].
  change (String.concat s (x :: y :: l)) with (x ++ s ++ String.concat s (y :: l)).
  now rewrite !contains_app, Hx, Hs, IH.
Qed.

Lemma repeat_sep_colon_free (k : nat) : contains (PyStr.repeat sep k) colon = false.
Proof. induction k as [|k IH]; [reflexivity | exact IH]. Qed.

Lemma normpath_colon_free (q : string) :
  contains q colon = false -> contains (normpath q) colon = false.
Proof.
  intros Hq. unfold normpath. destruct (q =? ""); [reflexivity|].
  match goal with
  | |- context [PyStr.repeat sep ?k ++ _] => generalize k
  end.
  intros k.
  match goal with |- context [if ?t then _ else _] => destruct t end; [|reflexivity].
  rewrite contains_app, repeat_sep_colon_free. cbn [orb].
  apply concat_free; [reflexivity|].
  apply normpath_fold_Forall; [constructor | now apply split_free].
Qed.

Lemma contains_rstrip (c c' : ascii) (s : string) :
  contains s c' = false -> contains (PyStr.rstrip s c) c' = false.
Proof.
  induction s as [|a s IH]; [reflexivity|].
  cbn [contains PyStr.rstrip]. intros H. apply orb_false_iff in H as [Ha Hs].
  specialize (IH Hs).
  destruct (PyStr.rstrip s c) as [|b r].
  - destruct (Ascii.eqb a c); [reflexivity|]. cbn [contains]. now rewrite Ha.
  - cbn [contains] in *. now rewrite Ha, IH.
Qed.

Lemma dirname_colon_free (r : string) :
  contains r colon = false -> contains (dirname r) colon = false.
Proof.
  intros Hr. destruct (contains r sep) eqn:Hc.
  - destruct (cut_at_last sep r Hc) as (x & y & -> & Hy).
    rewrite (dirname_cut x y Hy).
    rewrite contains_app in Hr. apply orb_false_iff in Hr as [Hx _].
    assert (contains (x ++ String sep "") colon = false) as Hhead
      by (rewrite contains_app, Hx; reflexivity).
    destruct (all_chars is_sep (x ++ String sep "")); [exact Hhead|].
    now apply contains_rstrip.
  - now rewrite (dirname_plain r Hc).
Qed.

Lemma resolved_colon_free (w : world) (p : string) :
  contains (cwd w) colon = false -> contains p colon = false ->
  contains (resolved w p) colon = false.
Proof.
  intros Hc Hp. rewrite resolved_eq. destruct (isabs p).
  - now apply normpath_colon_free.
  - apply normpath_colon_free. rewrite join_one. unfold join_step.
    destruct (PyStr.startswith p sep_str); [exact Hp|].
    destruct ((cwd w =? "") || PyStr.endswith (cwd w) sep_str);
      rewrite !contains_app, Hc, Hp; reflexivity.
Qed.

End Fields.

(** X11. A mount line of a run splits at its colons into its fields: there
    are three of them, and as many more as the source directory has colons.
    When neither the working directory nor the path has a colon, the
    fields are the source directory, the mount root followed by a separator
    and the mount name, and the access mode. *)
Theorem mount_line_fields (a : args) (w : world) (n p : string) (ro : bool) :
  In (n, p, ro) (mount_requests a) ->
  List.length (PyStr.split (fst (fst (generate_mount n p ro w))) colon)
  = (3 + count_char colon (PosixPath.dirname (fst (abspath p w))))%nat
  /\ (contains (cwd w) colon = false -> contains p colon = false ->
      PyStr.split (fst (fst (generate_mount n p ro w))) colon
      = [PosixPath.dirname (fst (abspath p w));
         ROOT_MOUNT_DIRECTORY ++ "/" ++ n;
         if ro then "ro" else "rw"]).
Proof.
  intros Hin. fold (resolved w p). rewrite generate_mount_eq. cbn [fst].
  pose proof (request_names_relative a _ Hin) as Hrel.
  pose proof (request_names_colon_free a _ Hin) as Hfree.
  unfold request_name in Hrel, Hfree. cbn [fst] in Hrel, Hfree.
  rewrite (target_path_relative n Hrel).
  assert (contains (ROOT_MOUNT_DIRECTORY ++ "/" ++ n) colon = false) as Ht
    by (rewrite !contains_app, Hfree; reflexivity).
  assert (contains (if ro then "ro" else "rw") colon = false) as Hm by now destruct ro.
  split.
  - rewrite split_length, !count_char_app.
    apply count_char_free in Ht, Hm. rewrite !count_char_app in Ht.
    change (count_char colon ":") with 1%nat. lia.
  - intros Hc Hp.
    apply (split_three colon); [|exact Ht | exact Hm].
    now apply dirname_colon_free, resolved_colon_free.
Qed.

Lemma mount_line_fields_witness :
  List.length
    (PyStr.split (fst (fst (generate_mount "output" "/out" false example_world))) colon)
  = (3 + count_char colon (PosixPath.dirname (fst (abspath "/out" example_world))))%nat
  /\ (contains (cwd example_world) colon = false -> contains "/out" colon = false ->
      PyStr.split (fst (fst (generate_mount "output" "/out" false example_world))) colon
      = [PosixPath.dirname (fst (abspath "/out" example_world));
         ROOT_MOUNT_DIRECTORY ++ "/" ++ "output";
         "rw"]).
Proof.
  apply (mount_line_fields (args_of example_world example_cli) example_world
           "output" "/out" false).
  vm_compute. do 10 right. left. reflexivity.
Defined.

(** ** The container-visible paths of a run *)

Lemma request_names_clean (a : args) (r : request) :
  In r (mount_requests a) -> clean (request_name r).
Proof.
  unfold mount_requests. intros H.
  apply in_app_or in H as [H|H]; [|apply in_app_or in H as [H|H]].
  - unfold fasta_requests in H. apply in_map_iff in H as (ip & <- & _).
    unfold request_name, fasta_request. cbn [fst]. split; [discriminate|].
    rewrite contains_app, of_nat_sep_free. reflexivity.
  - apply database_request_names in H. unfold database_names in H. cbn [In] in H.
    repeat (destruct H as [<-|H]; [split; [discriminate | reflexivity]|]). destruct H.
  - destruct H as [<-|[]]. split; [discriminate | reflexivity].
Qed.

(** Where the path of a mount of a run is visible: in the mount target,
    under the basename of the absolute path. *)
Lemma run_visible_path (a : args) (w : world) (r : request) :
  In r (mount_requests a) ->
  visible_path w r
  = "/mnt/" ++ request_name r ++ "/" ++ PosixPath.basename (resolved w (snd (fst r))).
Proof.
  intros Hin. pose proof (request_names_clean a r Hin) as Hclean.
  pose proof (request_names_relative a r Hin) as Hrel.
  destruct r as [[n p] ro]. unfold request_name in *. cbn [fst snd] in *.
  unfold visible_path. rewrite generate_mount_eq. cbn [fst snd].
  rewrite (target_path_relative n Hrel), join_one. unfold PosixPath.join_step.
  rewrite (PathFacts.sep_free_relative _ (PathFacts.basename_sep_free _)).
  assert (ends_clean (ROOT_MOUNT_DIRECTORY ++ "/" ++ n)) as He
    by (exists (ROOT_MOUNT_DIRECTORY ++ "/"), n; split;
        [now rewrite append_assoc | exact Hclean]).
  destruct (ends_clean_no_trailing_sep _ He) as [Hne Hend].
  apply String.eqb_neq in Hne. rewrite Hne, Hend. cbn [orb].
  unfold ROOT_MOUNT_DIRECTORY, PosixPath.sep_str. now rewrite !append_assoc.
Qed.

(** X12. Every path of a run is visible directly in its own mount target,
    as [/mnt/], the mount name, a separator and one component free of
    separators, the basename of the absolute path; and the
    container-visible paths of a run are pairwise distinct. *)
Theorem visible_paths_distinct (a : args) (w : world) :
  (forall n p ro, In (n, p, ro) (mount_requests a) ->
     snd (fst (generate_mount n p ro w))
     = "/mnt/" ++ n ++ "/" ++ PosixPath.basename (fst (abspath p w))
     /\ contains (PosixPath.basename (fst (abspath p w))) PosixPath.sep = false)
  /\ NoDup (map (fun r : request =>
                   snd (fst (generate_mount (fst (fst r)) (snd (fst r)) (snd r) w)))
                (mount_requests a)).
Proof.
  split.
  - intros n p ro Hin. split; [|apply PathFacts.basename_sep_free].
    exact (run_visible_path a w (n, p, ro) Hin).
  - destruct (mount_names_and_targets_distinct a) as [Hnames _].
    assert (forall r, In r (mount_requests a) ->
              snd (fst (generate_mount (fst (fst r)) (snd (fst r)) (snd r) w))
              = "/mnt/" ++ request_name r ++ "/"
                ++ PosixPath.basename (resolved w (snd (fst r)))) as Hvis.
    { intros [[n p] ro] Hin. exact (run_visible_path a w (n, p, ro) Hin). }
    assert (forall r, In r (mount_requests a) -> clean (request_name r)) as Hclean
      by (intros r; apply request_names_clean).
    induction (mount_requests a) as [|r l IH]; cbn [map]; [constructor|].
    cbn [map] in Hnames. inversion Hnames as [|? ? Hr Hl]; subst.
    constructor.
    + intros Hin. apply Hr.
      apply in_map_iff in Hin as (r' & E & Hr').
      rewrite (Hvis r (or_introl eq_refl)), (Hvis r' (or_intror Hr')) in E.
      cbn [append] in E. injection E as E.
      apply cut_first_unique in E as [E _];
        [|apply Hclean; now right | apply Hclean; now left].
      rewrite <- E. now apply in_map.
    + apply IH; [exact Hl | |]; intros r' Hr'; [apply Hvis | apply Hclean]; now right.
Qed.

Lemma visible_paths_distinct_witness :
  snd (fst (generate_mount "output" "/out" false example_world))
  = "/mnt/" ++ "output" ++ "/" ++ PosixPath.basename (fst (abspath "/out" example_world))
  /\ contains (PosixPath.basename (fst (abspath "/out" example_world))) PosixPath.sep = false.
Proof.
  apply (proj1 (visible_paths_distinct (args_of example_world example_cli) example_world)
           "output" "/out" false).
  vm_compute. do 10 right. left. reflexivity.
Defined.

(** ** Absolute paths that are already normalised *)

Section Normalised.

Import PosixPath.

Lemma split_concat (l : list string) :
  Forall (fun x => contains x sep = false) l -> l <> [] ->
  PyStr.split (String.concat sep_str l) sep = l.
Proof.
  intros Hl. induction Hl as [|x l Hx Hl IH]; [now intros []|]. intros _.
  destruct l as [|y l]; [now apply split_no_sep|].
  change (String.concat sep_str (x :: y :: l))
    with (x ++ String sep (String.concat sep_str (y :: l))).
  rewrite split_app, (split_no_sep sep x Hx), IH by discriminate. reflexivity.
Qed.

Lemma fold_ordinary (k : nat) (l acc : list string) :
  Forall (fun x => ordinary x = true) l ->
  fold_left (normpath_step k) l acc = acc +++ l.
Proof.
  intros Hl. revert acc.
  induction Hl as [|x l Hx Hl IH]; intros acc; cbn [fold_left].
  - now rewrite app_nil_r.
  - rewrite (PathFacts.normpath_step_ordinary k acc x Hx), IH.
    now rewrite <- app_assoc.
Qed.

Lemma plain_component_clean (x : string) : plain_component x -> clean x.
Proof. intros [Ho Hf]. now apply ordinary_clean. Qed.

Lemma concat_not_absolute (l : list string) :
  Forall plain_component l -> l <> [] ->
  PyStr.startswith (String.concat sep_str l) sep_str = false.
Proof.
  intros Hl Hne. destruct l as [|x l]; [now destruct Hne|].
  inversion Hl as [|? ? Hx _]; subst.
  destruct (plain_component_clean x Hx) as [Hnx Hfx].
  destruct x as [|a x]; [now destruct Hnx|].
  cbn [contains] in Hfx. apply orb_false_iff in Hfx as [Ha _].
  unfold sep in Ha.
  destruct l; cbn [String.concat append PyStr.startswith sep_str]; now rewrite Ha.
Qed.

(** [normpath] leaves an absolute path made of plain components as it is. *)
Lemma normpath_fixed (l : list string) :
  Forall plain_component l -> l <> [] ->
  normpath (String sep (String.concat sep_str l)) = String sep (String.concat sep_str l).
Proof.
  intros Hl Hne. unfold normpath.
  pose proof (concat_not_absolute l Hl Hne) as Hrel.
  assert (PyStr.startswith (String sep (String.concat sep_str l)) (PyStr.repeat sep 2) = false)
    as H2.
  { cbn [PyStr.repeat PyStr.startswith]. rewrite Ascii.eqb_refl. cbn [andb]. exact Hrel. }
  cbn [String.eqb]. cbn [sep_str PyStr.startswith]. rewrite Ascii.eqb_refl. cbn [andb].
  change (String sep "") with sep_str. rewrite H2. cbn [andb].
  cbn [PyStr.split]. rewrite Ascii.eqb_refl.
  rewrite split_concat;
    [|apply (Forall_impl _ (fun x (H : plain_component x) => proj2 H) Hl) | exact Hne].
  cbn [fold_left]. replace (normpath_step 1 [] "") with (@nil string) by reflexivity.
  rewrite fold_ordinary
    by apply (Forall_impl _ (fun x (H : plain_component x) => proj1 H) Hl).
  reflexivity.
Qed.

End Normalised.

(** X13. For an absolute path written with plain components,
    [/c1/.../cn/b], the mount source is the parent directory as it is
    written, [/c1/.../cn], or [/] when the path has one component only;
    the path is visible as the mount target joined with [b]; and the world
    is left as it was. *)
Theorem mount_of_normalised_path (w : world) (n : string) (ro : bool)
    (dirs : list string) (b : string) :
  Forall plain_component (dirs +++ [b]) ->
  generate_mount n ("/" ++ PyStr.join "/" (dirs +++ [b])) ro w
  = ((match dirs with [] => "/" | _ => "/" ++ PyStr.join "/" dirs end
      ++ ":" ++ PosixPath.join ROOT_MOUNT_DIRECTORY [n] ++ ":" ++ (if ro then "ro" else "rw"),
      PosixPath.join (PosixPath.join ROOT_MOUNT_DIRECTORY [n]) [b]),
     w).
Proof.
  intros Hl. rewrite generate_mount_eq. unfold target_path_of.
  assert (resolved w ("/" ++ PyStr.join "/" (dirs +++ [b]))
          = String PosixPath.sep (String.concat PosixPath.sep_str (dirs +++ [b]))) as Er.
  { rewrite resolved_eq. cbn [append]. 
    change (PosixPath.isabs (String "/" (PyStr.join "/" (dirs +++ [b])))) with true.
    cbn iota. apply normpath_fixed; [exact Hl | now destruct dirs]. }
  rewrite Er. clear Er.
  apply Forall_app in Hl as [Hdirs Hb]. inversion Hb as [|? ? [Hob Hfb] _]; subst.
  rewrite PathFacts.concat_snoc.
  destruct dirs as [|c dirs].
  - change (String PosixPath.sep b) with ("" ++ String PosixPath.sep b).
    rewrite (dirname_cut "" b Hfb), (PathFacts.basename_app "" b Hfb). reflexivity.
  - replace (String PosixPath.sep
               (String.concat PosixPath.sep_str (c :: dirs) ++ PosixPath.sep_str ++ b))
      with (("/" ++ PyStr.join "/" (c :: dirs)) ++ String PosixPath.sep b)
      by reflexivity.
    assert (ends_clean ("/" ++ PyStr.join "/" (c :: dirs))) as He.
    { apply (clean_join_ends_clean "/" (c :: dirs)); [|discriminate].
      apply (Forall_impl _ plain_component_clean Hdirs). }
    destruct (recompose_deep _ b He Hfb) as [-> _].
    now rewrite (PathFacts.basename_app _ b Hfb).
Qed.

Lemma mount_of_normalised_path_witness :
  generate_mount "fasta_path_0" ("/" ++ PyStr.join "/" (["data"; "in"] +++ ["seq1.fasta"]))
                 true example_world
  = (("/" ++ PyStr.join "/" ["data"; "in"]
      ++ ":" ++ PosixPath.join ROOT_MOUNT_DIRECTORY ["fasta_path_0"] ++ ":" ++ "ro",
      PosixPath.join (PosixPath.join ROOT_MOUNT_DIRECTORY ["fasta_path_0"]) ["seq1.fasta"]),
     example_world).
Proof.
  apply (mount_of_normalised_path example_world "fasta_path_0" true
           ["data"; "in"] "seq1.fasta").
  repeat constructor.
Defined.
